(** * INA226 driver (src/INA226.c): a shallow embedding and its properties

    The driver talks to a Texas Instruments INA226 current/voltage/power
    monitor through three platform callbacks ([Check_device], [Transmit],
    [Receive]).  The embedding keeps the source's structure:

    - C integers are [Z] with the wrap-around of their width written out;
    - [double] is IEEE-754 binary64, taken from the Standard Library's
      executable specification [SpecFloat] (round to nearest even);
    - the device structs are records, the [status] enum an inductive type;
    - every function runs in a small monad [io] that threads the state of
      the bus together with a log of the transport calls made so far. *)

From Stdlib Require Import ZArith List Bool Lia QArith Qround.
From Stdlib Require Import SpecFloat.
Import ListNotations.

Local Open Scope Z_scope.

(* ================================================================== *)
(** * C integer types

    Conversions to a fixed-width type wrap as on the two's-complement
    targets of the driver; [>>] on a negative [int32_t] keeps the sign
    ([Z.shiftr]) and [<<] multiplies ([Z.shiftl]). *)

Definition to_uint8 (z : Z) : Z := z mod 2 ^ 8.
Definition to_uint16 (z : Z) : Z := z mod 2 ^ 16.
Definition to_int16 (z : Z) : Z := (z + 2 ^ 15) mod 2 ^ 16 - 2 ^ 15.
Definition to_int32 (z : Z) : Z := (z + 2 ^ 31) mod 2 ^ 32 - 2 ^ 31.

Definition INT32_MIN : Z := - 2 ^ 31.
Definition INT32_MAX : Z := 2 ^ 31 - 1.
Definition UINT16_MAX : Z := 2 ^ 16 - 1.

(* ================================================================== *)
(** * [double]: IEEE-754 binary64 *)

Definition double : Type := spec_float.

Definition dmul : double -> double -> double := SFmul 53 1024.
Definition ddiv : double -> double -> double := SFdiv 53 1024.

(** An integer as a double (exact up to 2^53, rounded to nearest beyond). *)
Definition double_of_Z (z : Z) : double := binary_normalize 53 1024 z 0 false.

(** 2^k as a positive number. *)
Definition pow2_pos (k : positive) : positive := Pos.iter xO xH k.

Definition signed_mantissa (s : bool) (m : positive) : Z :=
  if s then Zneg m else Zpos m.

(** The real number a double stands for, as a rational; [None] for
    infinities and NaN. *)
Definition double_value (x : double) : option Q :=
  match x with
  | S754_zero _ => Some (inject_Z 0)
  | S754_finite s m e =>
      Some match e with
           | Zneg k => Qmake (signed_mantissa s m) (pow2_pos k)
           | _ => inject_Z (signed_mantissa s m * 2 ^ e)
           end
  | S754_infinity _ | S754_nan => None
  end.

(** Integer part towards zero, as the C conversion to an integer type
    takes it (C11 6.3.1.4). *)
Definition Qtrunc (q : Q) : Z := Z.quot (Qnum q) (Zpos (Qden q)).

(** Conversion of a double to an integer type with range [lo, hi].  The C
    standard leaves the conversion undefined when the truncated value does
    not fit (and for infinities and NaN): that is [None]. *)
Definition double_to_integer (lo hi : Z) (x : double) : option Z :=
  match double_value x with
  | Some q =>
      let z := Qtrunc q in
      if (lo <=? z) && (z <=? hi) then Some z else None
  | None => None
  end.

Definition double_to_int32 : double -> option Z :=
  double_to_integer INT32_MIN INT32_MAX.
Definition double_to_uint16 : double -> option Z :=
  double_to_integer 0 UINT16_MAX.

(** [ceil] of <math.h>: the smallest integral value not less than the
    argument, as a double.  A double whose exponent is not negative is
    integral already; the result keeps the sign of a zero result. *)
Definition ceil (x : double) : double :=
  match x with
  | S754_finite s m (Zneg k) =>
      let n := Qceiling (Qmake (signed_mantissa s m) (pow2_pos k)) in
      if n =? 0 then S754_zero s else double_of_Z n
  | _ => x
  end.

(** The floating constants of the source, as their nearest doubles. *)
Definition lit_1000000_0 : double := double_of_Z 1000000.
Definition lit_32767_0 : double := double_of_Z 32767.
Definition lit_0_00521 : double := S754_finite false 6006721039001673 (-60).

(* ================================================================== *)
(** * Status codes and device structs *)

(** The enumerators of [status] that the source uses. *)
Inductive status : Type :=
| OK
| FAIL
| INA226_TI_ID_MISMATCH
| INA226_DIE_ID_MISMATCH
| CONFIG_ERROR
| BAD_PARAMETER
| NOT_INITIALIZED
| INVALID_I2C_ADDRESS.

Definition status_eqb (a b : status) : bool :=
  match a, b with
  | OK, OK | FAIL, FAIL
  | INA226_TI_ID_MISMATCH, INA226_TI_ID_MISMATCH
  | INA226_DIE_ID_MISMATCH, INA226_DIE_ID_MISMATCH
  | CONFIG_ERROR, CONFIG_ERROR
  | BAD_PARAMETER, BAD_PARAMETER
  | NOT_INITIALIZED, NOT_INITIALIZED
  | INVALID_I2C_ADDRESS, INVALID_I2C_ADDRESS => true
  | _, _ => false
  end.

(** Modelled from the spec: the integer value of the enumerator [OK],
    declared in INA226.h, which is not part of the sources at hand.  The
    spec reads a status as failed exactly when it is non-zero. *)
Definition OK_value : Z := 0.

Record INA226_config : Type := mkConfig {
  mInitialized : bool;
  hi2c : Z;
  mI2C_Address : Z;
  mConfigRegister : Z;
  mCalibrationValue : Z;
  mCurrentMicroAmpsPerBit : Z;
  mPowerMicroWattPerBit : Z
}.

Record INA226_result : Type := mkResult {
  ShuntVoltage_uV : Z;
  BusVoltage_uV : Z;
  Current_uA : Z;
  Power_uW : Z
}.

Record INA226 : Type := mkINA226 {
  Config : INA226_config;
  Result : INA226_result
}.

Definition set_mConfigRegister (this : INA226_config) (v : Z) : INA226_config :=
  mkConfig (mInitialized this) (hi2c this) (mI2C_Address this) v
           (mCalibrationValue this) (mCurrentMicroAmpsPerBit this)
           (mPowerMicroWattPerBit this).

Definition set_mInitialized (this : INA226_config) (b : bool) : INA226_config :=
  mkConfig b (hi2c this) (mI2C_Address this) (mConfigRegister this)
           (mCalibrationValue this) (mCurrentMicroAmpsPerBit this)
           (mPowerMicroWattPerBit this).

Definition set_calibration (this : INA226_config) (cur cal pow : Z) : INA226_config :=
  mkConfig (mInitialized this) (hi2c this) (mI2C_Address this)
           (mConfigRegister this) cal cur pow.

Definition set_Config (this : INA226) (c : INA226_config) : INA226 :=
  mkINA226 c (Result this).

(* ================================================================== *)
(** * Register map and constants *)

Definition INA226_CONFIG : Z := 0x00.
Definition INA226_SHUNT_VOLTAGE : Z := 0x01.
Definition INA226_BUS_VOLTAGE : Z := 0x02.
Definition INA226_POWER : Z := 0x03.
Definition INA226_CURRENT : Z := 0x04.
Definition INA226_CALIBRATION : Z := 0x05.
Definition INA226_MASK_ENABLE : Z := 0x06.
Definition INA226_ALERT_LIMIT : Z := 0x07.
Definition INA226_MANUFACTURER_ID : Z := 0xFE.
Definition INA226_DIE_ID : Z := 0xFF.

Definition INA226_BUS_VOLTAGE_LSB : Z := 1250.
Definition INA226_POWER_LSB_FACTOR : Z := 25.
Definition INA226_MANUFACTURER_ID_K : Z := 0x5449.
Definition INA226_DIE_ID_K : Z := 0x2260.
Definition INA226_CONFIG_DEFAULT : Z := 0x4527.

Definition cResetCommand : Z := 0x8000.
Definition cOperatingModeMask : Z := 0x0007.
Definition cAlertPinModeMask : Z := 0xFC00.
Definition cAlertCauseMask : Z := 0x001E.
Definition cAlertLatchingMode : Z := 0x0001.
Definition cSampleAvgMask : Z := 0x0E00.
Definition cBusVoltageConvTimeMask : Z := 0x01C0.
Definition cShuntVoltageConvTimeMask : Z := 0x0038.
Definition cSampleAvgIdxShift : Z := 9.
Definition cBusVoltConvTimeIdxShift : Z := 6.
Definition cShuntVoltConvTimeIdxShift : Z := 3.
Definition cMaxSampleAvgTblIdx : Z := 7.
Definition cMaxConvTimeTblIdx : Z := 7.

(** The three assignments of [INA226_setupCalibration] (source lines 154
    to 159), each taken on its own: the value given to
    [mCurrentMicroAmpsPerBit], to [mCalibrationValue] and to
    [mPowerMicroWattPerBit], [None] where the conversion that produces the
    value is not defined.  The first and the third are computed from
    [theCurrentLSB] alone: neither reads [theCal] or the shunt resistance.
    [INA226_setupCalibration] below is the whole call, which C defines only
    when all its conversions are. *)
Definition setupCalibration_assignments
           (aShuntResistor_Ohms aMaxCurrent_Amps : double)
  : option Z * option Z * option Z :=
  let theCurrentLSB :=
    ceil (ddiv (dmul aMaxCurrent_Amps lit_1000000_0) lit_32767_0) in
  let theCal :=
    ddiv lit_0_00521
         (dmul aShuntResistor_Ohms (ddiv theCurrentLSB lit_1000000_0)) in
  let cur := double_to_int32 theCurrentLSB in
  let cal := double_to_uint16 theCal in
  let pow := option_map (fun c => to_int32 (c * INA226_POWER_LSB_FACTOR)) cur in
  (cur, cal, pow).

(* ================================================================== *)
(** * The transport and the [io] monad *)

(** One call of a platform callback, with what it was given and what it
    answered. *)
Inductive event : Type :=
| EvCheck (handle address trials ret : Z)
| EvTransmit (handle address : Z) (bytes : list Z) (ret : Z)
| EvReceive (handle address : Z) (count : nat) (bytes : list Z) (ret : Z).

(** A register write is a three-byte transmit. *)
Definition is_write (e : event) : bool :=
  match e with
  | EvTransmit _ _ [_; _; _] _ => true
  | _ => false
  end.

(** The register and the value a three-byte transmit carries. *)
Definition written (e : event) : option (Z * Z) :=
  match e with
  | EvTransmit _ _ [r; hi; lo] _ => Some (r, Z.lor (Z.shiftl hi 8) lo)
  | _ => None
  end.

Definition byte_at (buffer : list Z) (i : nat) : Z := to_uint8 (nth i buffer 0).

(** The 16-bit value that [INA226_ReadRegister] assembles from a receive
    buffer. *)
Definition buffer_value (buffer : list Z) : Z :=
  to_uint16 (Z.lor (Z.shiftl (byte_at buffer 0) 8) (byte_at buffer 1)).

Section Driver.

(** The bus behind the callbacks of INA226_callback.h: any state, any
    behaviour.  The callbacks get [this] in the source and use it to
    reach the bus handle and the device address; the model hands them
    these two fields. *)
Variable bus : Type.
Variable Check_device : Z -> Z -> Z -> Z -> bus -> Z * bus.
Variable Transmit : Z -> Z -> list Z -> bus -> Z * bus.
Variable Receive : Z -> Z -> nat -> bus -> (list Z * Z) * bus.

Record world : Type := mkWorld { bus_state : bus; trace : list event }.

(** State passing over [world]; [None] stands for behaviour that C
    leaves undefined. *)
Definition io (A : Type) : Type := world -> option (A * world).

Definition ret {A : Type} (a : A) : io A := fun w => Some (a, w).

Definition bind {A B : Type} (m : io A) (k : A -> io B) : io B :=
  fun w => match m w with
           | Some (a, w') => k a w'
           | None => None
           end.

Definition undefined {A : Type} : io A := fun _ => None.

Local Notation "x <- m ;; k" := (bind m (fun x => k))
  (at level 61, m at next level, right associativity).
Local Notation "' p <- m ;; k" := (bind m (fun x => match x with p => k end))
  (at level 61, p pattern, m at next level, right associativity).

Definition call_Check_device (this : INA226_config) (address trials : Z) : io Z :=
  fun w =>
    let '(r, b) := Check_device (hi2c this) (mI2C_Address this) address trials
                                (bus_state w) in
    Some (r, mkWorld b (trace w ++ [EvCheck (hi2c this) address trials r])).

Definition call_Transmit (this : INA226_config) (bytes : list Z) : io Z :=
  fun w =>
    let '(r, b) := Transmit (hi2c this) (mI2C_Address this) bytes (bus_state w) in
    Some (r, mkWorld b (trace w ++
                        [EvTransmit (hi2c this) (mI2C_Address this) bytes r])).

Definition call_Receive (this : INA226_config) (count : nat) : io (list Z * Z) :=
  fun w =>
    let '((buffer, r), b) := Receive (hi2c this) (mI2C_Address this) count
                                     (bus_state w) in
    Some ((buffer, r),
          mkWorld b (trace w ++
                     [EvReceive (hi2c this) (mI2C_Address this) count buffer r])).

(** ** Helper macros *)

(** [#define CALL_FN(fn); { status s = fn; if(fn != OK){return s;} }]:
    the expression [fn] is written twice in the expansion, so it is
    evaluated twice; the status tested is the second one, the status
    returned is the first one. *)
Definition CALL_FN {S : Type} (fn : S -> io (status * S))
           (k : S -> io (status * S)) (s0 : S) : io (status * S) :=
  '(s, s1) <- fn s0 ;;
  '(s', s2) <- fn s1 ;;
  if status_eqb s' OK then k s2 else ret (s, s2).

(** [#define CHECK_INITIALIZED(); if(!this->mInitialized) return NOT_INITIALIZED;] *)
Definition CHECK_INITIALIZED (this : INA226_config)
           (k : io (status * INA226_config)) : io (status * INA226_config) :=
  if negb (mInitialized this) then ret (NOT_INITIALIZED, this) else k.

(** ** Register access *)

Definition INA226_CheckI2cAddress (this : INA226_config) (aI2C_Address : Z)
  : io status :=
  r <- call_Check_device this (to_uint16 aI2C_Address) 10 ;;
  if r =? 0 then ret OK else ret INVALID_I2C_ADDRESS.

(** Returns the status and the final content of [*aValue_p]: zero unless
    both transport phases succeeded. *)
Definition INA226_ReadRegister (this : INA226_config) (aRegister : Z)
  : io (status * Z) :=
  t <- call_Transmit this [to_uint8 aRegister] ;;
  if t =? 0 then
    '(buffer, r) <- call_Receive this 2 ;;
    if r =? 0 then ret (OK, buffer_value buffer) else ret (FAIL, 0)
  else ret (FAIL, 0).

Definition INA226_WriteRegister (this : INA226_config) (aRegister aValue : Z)
  : io status :=
  let aValue := to_uint16 aValue in
  t <- call_Transmit this [to_uint8 aRegister;
                           to_uint8 (Z.land (Z.shiftr aValue 8) 0xFF);
                           to_uint8 (Z.land aValue 0xFF)] ;;
  if t =? 0 then ret OK else ret FAIL.

(** ** Measurements *)

Definition INA226_GetShuntVoltage_uV (this : INA226) : io Z :=
  '(_, v) <- INA226_ReadRegister (Config this) INA226_SHUNT_VOLTAGE ;;
  let theRegisterValue := to_int16 v in
  let theResult := to_int32 (Z.shiftr theRegisterValue 1) in
  let theResult := to_int32 (theResult + to_int32 (Z.shiftl theRegisterValue 1)) in
  ret theResult.

Definition INA226_GetBusVoltage_uV (this : INA226) : io Z :=
  '(_, theRegisterValue) <- INA226_ReadRegister (Config this) INA226_BUS_VOLTAGE ;;
  ret (to_int32 (theRegisterValue * INA226_BUS_VOLTAGE_LSB)).

Definition INA226_GetCurrent_uA (this : INA226) : io Z :=
  '(_, v) <- INA226_ReadRegister (Config this) INA226_CURRENT ;;
  let theRegisterValue := to_int16 v in
  ret (to_int32 (theRegisterValue * mCurrentMicroAmpsPerBit (Config this))).

Definition INA226_GetPower_uW (this : INA226) : io Z :=
  '(_, theRegisterValue) <- INA226_ReadRegister (Config this) INA226_POWER ;;
  ret (to_int32 (theRegisterValue * mPowerMicroWattPerBit (Config this))).

(** [r] is an [int]; the function returns it as a [status], here as the
    integer the status stands for.  The getters all receive the same
    [this]: they do not touch the struct. *)
Definition INA226_MeasureAll (this : INA226) : io (Z * INA226) :=
  let r := 0 in
  sv <- INA226_GetShuntVoltage_uV this ;;
  let r := Z.lor r sv in
  bv <- INA226_GetBusVoltage_uV this ;;
  let r := Z.lor r bv in
  cu <- INA226_GetCurrent_uA this ;;
  let r := Z.lor r cu in
  pw <- INA226_GetPower_uW this ;;
  let r := Z.lor r pw in
  ret (r, mkINA226 (Config this) (mkResult sv bv cu pw)).

(** ** Enumerators of INA226.h

    The header that declares [enum eOperatingMode], [enum eAlertTrigger]
    and [enum eAlertTriggerCause] is not part of the sources at hand; the
    integer values of the enumerators the driver names are parameters. *)
Variables Shutdown ShuntAndBusVoltageContinuous : Z.
Variables PowerOverLimit ClearTriggers ConversionReady : Z.
Variables ShuntVoltageOverLimit ShuntVoltageUnderLimit : Z.
Variables BusVoltageOverLimit BusVoltageUnderLimit : Z.
Variable Unknown : Z.

(** ** Construction, calibration, initialisation *)

Definition INA226_Constructor (this : INA226_config) (i2c_device aI2C_Address : Z)
  : INA226_config :=
  mkConfig false i2c_device (to_uint8 aI2C_Address) 0 0 0 0.

Definition INA226_setupCalibration (this : INA226_config)
           (aShuntResistor_Ohms aMaxCurrent_Amps : double)
  : io (status * INA226_config) :=
  let theCurrentLSB :=
    ceil (ddiv (dmul aMaxCurrent_Amps lit_1000000_0) lit_32767_0) in
  let theCal :=
    ddiv lit_0_00521
         (dmul aShuntResistor_Ohms (ddiv theCurrentLSB lit_1000000_0)) in
  match double_to_int32 theCurrentLSB with
  | None => undefined
  | Some cur =>
      match double_to_uint16 theCal with
      | None => undefined
      | Some cal =>
          let pow := to_int32 (cur * INA226_POWER_LSB_FACTOR) in
          let this := set_calibration this cur cal pow in
          s <- INA226_WriteRegister this INA226_CALIBRATION
                                    (mCalibrationValue this) ;;
          ret (s, this)
      end
  end.

(** The steps of [INA226_Init] act on the device and on the local
    [theINA226_ID]. *)
Definition read_into_local (aRegister : Z) (s : INA226_config * Z)
  : io (status * (INA226_config * Z)) :=
  '(st, v) <- INA226_ReadRegister (fst s) aRegister ;;
  ret (st, (fst s, v)).

Definition read_into_mConfigRegister (this : INA226_config)
  : io (status * INA226_config) :=
  '(st, v) <- INA226_ReadRegister this INA226_CONFIG ;;
  ret (st, set_mConfigRegister this v).

(** A step that leaves the local variable of the caller alone. *)
Definition on_device {L : Type} (fn : INA226_config -> io (status * INA226_config))
           (s : INA226_config * L) : io (status * (INA226_config * L)) :=
  '(st, this) <- fn (fst s) ;;
  ret (st, (this, snd s)).

Definition write_step (aRegister aValue : Z) (this : INA226_config)
  : io (status * INA226_config) :=
  st <- INA226_WriteRegister this aRegister aValue ;;
  ret (st, this).

Definition INA226_Init (this : INA226) (i2c_device aI2C_Address : Z)
           (aShuntResistor_Ohms aMaxCurrent_Amps : double)
  : io (status * INA226) :=
  let aI2C_Address := to_uint8 aI2C_Address in
  let cfg := INA226_Constructor (Config this) i2c_device aI2C_Address in
  '(st, (cfg, _)) <-
    CALL_FN (on_device (fun c => st <- INA226_CheckI2cAddress c aI2C_Address ;;
                                 ret (st, c)))
      (CALL_FN (read_into_local INA226_MANUFACTURER_ID)
         (fun s =>
            if negb (snd s =? INA226_MANUFACTURER_ID_K)
            then ret (INA226_TI_ID_MISMATCH, s)
            else
              CALL_FN (read_into_local INA226_DIE_ID)
                (fun s =>
                   if negb (snd s =? INA226_DIE_ID_K)
                   then ret (INA226_DIE_ID_MISMATCH, s)
                   else
                     CALL_FN (on_device (write_step INA226_CONFIG cResetCommand))
                       (CALL_FN (on_device (write_step INA226_CONFIG
                                                       INA226_CONFIG_DEFAULT))
                          (CALL_FN (on_device read_into_mConfigRegister)
                             (fun s =>
                                if negb (mConfigRegister (fst s)
                                         =? INA226_CONFIG_DEFAULT)
                                then ret (CONFIG_ERROR, s)
                                else
                                  CALL_FN
                                    (on_device
                                       (fun c => INA226_setupCalibration
                                                   c aShuntResistor_Ohms
                                                   aMaxCurrent_Amps))
                                    (fun s =>
                                       ret (OK, (set_mInitialized (fst s) true,
                                                 snd s)))
                                    s)))
                       s)
                s))
      (cfg, 0) ;;
  ret (st, set_Config this cfg).

(** ** Power states and operating mode *)

Definition INA226_Hibernate (this : INA226_config) : io (status * INA226_config) :=
  CHECK_INITIALIZED this
    (CALL_FN read_into_mConfigRegister
       (fun this =>
          let theTempConfigValue :=
            to_uint16 (Z.land (mConfigRegister this) (Z.lnot cOperatingModeMask)) in
          write_step INA226_CONFIG theTempConfigValue this)
       this).

Definition INA226_Wakeup (this : INA226_config) : io (status * INA226_config) :=
  CHECK_INITIALIZED this
    (let theLastOperatingMode :=
       to_uint16 (Z.land (mConfigRegister this) cOperatingModeMask) in
     let this :=
       if (theLastOperatingMode =? Shutdown) || (theLastOperatingMode =? 0)
       then
         let cleared :=
           to_uint16 (Z.land (mConfigRegister this) (Z.lnot cOperatingModeMask)) in
         set_mConfigRegister this
           (to_uint16 (Z.lor cleared ShuntAndBusVoltageContinuous))
       else this in
     write_step INA226_CONFIG (mConfigRegister this) this).

Definition INA226_SetOperatingMode (this : INA226_config) (aOpMode : Z)
  : io (status * INA226_config) :=
  CHECK_INITIALIZED this
    (CALL_FN read_into_mConfigRegister
       (fun this =>
          let cleared :=
            to_uint16 (Z.land (mConfigRegister this) (Z.lnot cOperatingModeMask)) in
          let this :=
            set_mConfigRegister this (to_uint16 (Z.lor cleared (to_uint16 aOpMode))) in
          write_step INA226_CONFIG (mConfigRegister this) this)
       this).

(** ** Alert pin *)

(** The [switch] of [INA226_ConfigureAlertPinTrigger]: the register count
    for the threshold, [None] for the [default] label.  The outer option
    is [None] where the integer division is undefined in C (a zero
    divisor, or [INT32_MIN / -1]). *)
Definition int32_div (a d : Z) : option Z :=
  if (d =? 0) || ((a =? INT32_MIN) && (d =? -1)) then None
  else Some (Z.quot a d).

Definition alert_value (this : INA226_config) (aAlertTrigger aValue : Z)
  : option (option Z) :=
  if aAlertTrigger =? PowerOverLimit then
    option_map Some (int32_div aValue (mPowerMicroWattPerBit this))
  else if (aAlertTrigger =? ClearTriggers) || (aAlertTrigger =? ConversionReady) then
    Some (Some 0)
  else if (aAlertTrigger =? ShuntVoltageOverLimit)
          || (aAlertTrigger =? ShuntVoltageUnderLimit) then
    option_map Some (int32_div (to_int32 (Z.shiftl aValue 1)) 5)
  else if (aAlertTrigger =? BusVoltageOverLimit)
          || (aAlertTrigger =? BusVoltageUnderLimit) then
    option_map Some (int32_div aValue INA226_BUS_VOLTAGE_LSB)
  else Some None.

(** The state of the steps is the device and the local
    [theMaskEnableRegister]. *)
Definition INA226_ConfigureAlertPinTrigger (this : INA226_config)
           (aAlertTrigger aValue : Z) (aLatching : bool)
  : io (status * INA226_config) :=
  let aValue := to_int32 aValue in
  CHECK_INITIALIZED this
    ('(st, (this, _)) <-
       CALL_FN (read_into_local INA226_MASK_ENABLE)
         (fun s =>
            let this := fst s in
            let theMaskEnableRegister :=
              to_uint16 (Z.land (snd s) (Z.lnot cAlertPinModeMask)) in
            let theMaskEnableRegister :=
              to_uint16 (Z.lor theMaskEnableRegister (to_uint16 aAlertTrigger)) in
            let theMaskEnableRegister :=
              if aLatching
              then to_uint16 (Z.lor theMaskEnableRegister cAlertLatchingMode)
              else theMaskEnableRegister in
            match alert_value this aAlertTrigger aValue with
            | None => undefined
            | Some None => ret (BAD_PARAMETER, (this, theMaskEnableRegister))
            | Some (Some theAlertValue) =>
                CALL_FN (on_device (write_step INA226_ALERT_LIMIT
                                               (to_int16 theAlertValue)))
                  (on_device (write_step INA226_MASK_ENABLE theMaskEnableRegister))
                  (this, theMaskEnableRegister)
            end)
         (this, 0) ;;
     ret (st, this)).

(** Returns the status, the device and the final [*aAlertTriggerCause_p]. *)
Definition INA226_ResetAlertPin (this : INA226_config)
  : io (status * (INA226_config * Z)) :=
  if negb (mInitialized this) then ret (NOT_INITIALIZED, (this, Unknown))
  else
    '(st, (this, cause, _)) <-
      CALL_FN (fun s : INA226_config * Z * Z =>
                 '(st, v) <- INA226_ReadRegister (fst (fst s)) INA226_MASK_ENABLE ;;
                 ret (st, (fst s, v)))
        (fun s =>
           let theTriggerCause := to_uint16 (Z.land (snd s) cAlertCauseMask) in
           ret (OK, (fst (fst s), theTriggerCause, theTriggerCause)))
        (this, Unknown, 0) ;;
    ret (st, (this, cause)).

(** ** Conversion time and averaging *)

Definition INA226_ConfigureVoltageConversionTime (this : INA226_config)
           (aIndexToConversionTimeTable : Z) : io (status * INA226_config) :=
  CHECK_INITIALIZED this
    (if (aIndexToConversionTimeTable <? 0)
        || (aIndexToConversionTimeTable >? cMaxConvTimeTblIdx)
     then ret (BAD_PARAMETER, this)
     else
       CALL_FN read_into_mConfigRegister
         (fun this =>
            let cleared :=
              to_uint16 (Z.land (mConfigRegister this)
                                (Z.lnot (Z.lor cBusVoltageConvTimeMask
                                               cShuntVoltageConvTimeMask))) in
            let theMergedBusAndShuntConvTimeIndicies :=
              to_uint16
                (Z.lor (Z.shiftl (to_uint16 aIndexToConversionTimeTable)
                                 cBusVoltConvTimeIdxShift)
                       (Z.shiftl (to_uint16 aIndexToConversionTimeTable)
                                 cShuntVoltConvTimeIdxShift)) in
            let this :=
              set_mConfigRegister this
                (to_uint16 (Z.lor cleared theMergedBusAndShuntConvTimeIndicies)) in
            write_step INA226_CONFIG (mConfigRegister this) this)
         this).

Definition INA226_ConfigureNumSampleAveraging (this : INA226_config)
           (aIndexToSampleAverageTable : Z) : io (status * INA226_config) :=
  CHECK_INITIALIZED this
    (if (aIndexToSampleAverageTable <? 0)
        || (aIndexToSampleAverageTable >? cMaxSampleAvgTblIdx)
     then ret (BAD_PARAMETER, this)
     else
       CALL_FN read_into_mConfigRegister
         (fun this =>
            let cleared :=
              to_uint16 (Z.land (mConfigRegister this) (Z.lnot cSampleAvgMask)) in
            let this :=
              set_mConfigRegister this
                (to_uint16 (Z.lor cleared
                                  (to_int32 (Z.shiftl aIndexToSampleAverageTable
                                                      cSampleAvgIdxShift)))) in
            write_step INA226_CONFIG (mConfigRegister this) this)
         this).

(** Returns the status, the device and the final [*aConfigReg_p] ([None]
    when the function returns before writing it). *)
Definition INA226_Debug_GetConfigRegister (this : INA226_config)
  : io (status * INA226_config * option Z) :=
  if negb (mInitialized this) then ret (NOT_INITIALIZED, this, None)
  else
    '(st, v) <- INA226_ReadRegister this INA226_CONFIG ;;
    ret (st, this, Some v).

End Driver.

Arguments world : clear implicits.
Arguments mkWorld {bus} _ _.
Arguments bus_state {bus} _.
Arguments trace {bus} _.

(* ================================================================== *)
(** * A simulated bus, for running the driver on concrete inputs *)

(** A register file with a register pointer, as the chip has, and a script
    of transport failures: each callback consumes one entry ([true] makes
    that call fail); [rest] decides the calls after the script is used up. *)
Record sim : Type := mkSim {
  regs : list (Z * Z);
  pointer : Z;
  script : list bool;
  rest : bool
}.

Fixpoint reg_lookup (rs : list (Z * Z)) (r : Z) : Z :=
  match rs with
  | [] => 0
  | (r', v) :: tl => if r' =? r then v else reg_lookup tl r
  end.

Definition next_fails (b : sim) : bool :=
  match script b with
  | [] => rest b
  | f :: _ => f
  end.

Definition advance (b : sim) : sim :=
  mkSim (regs b) (pointer b) (tl (script b)) (rest b).

Definition sim_Check_device (handle address target trials : Z) (b : sim) : Z * sim :=
  (if next_fails b then 1 else 0, advance b).

Definition sim_Transmit (handle address : Z) (bytes : list Z) (b : sim) : Z * sim :=
  if next_fails b then (1, advance b)
  else
    match bytes with
    | [r] => (0, mkSim (regs b) r (tl (script b)) (rest b))
    | [r; hi; lo] => (0, mkSim ((r, hi * 256 + lo) :: regs b) r (tl (script b)) (rest b))
    | _ => (0, advance b)
    end.

Definition sim_Receive (handle address : Z) (count : nat) (b : sim)
  : (list Z * Z) * sim :=
  if next_fails b then (([0; 0], 1), advance b)
  else
    let v := reg_lookup (regs b) (pointer b) in
    (([v / 256; v mod 256], 0), advance b).

(** The enumerator values of the INA226 data sheet (mode bits 100 for
    power-down, 111 for shunt and bus continuous; one mask/enable bit per
    alert function), used where an example needs concrete ones. *)
Definition ds_Shutdown : Z := 4.
Definition ds_ShuntAndBusVoltageContinuous : Z := 7.
Definition ds_ShuntVoltageOverLimit : Z := 0x8000.
Definition ds_ShuntVoltageUnderLimit : Z := 0x4000.
Definition ds_BusVoltageOverLimit : Z := 0x2000.
Definition ds_BusVoltageUnderLimit : Z := 0x1000.
Definition ds_PowerOverLimit : Z := 0x0800.
Definition ds_ConversionReady : Z := 0x0400.
Definition ds_ClearTriggers : Z := 0x0000.

(** A chip that identifies as an INA226. *)
Definition chip_regs : list (Z * Z) :=
  [(INA226_MANUFACTURER_ID, INA226_MANUFACTURER_ID_K);
   (INA226_DIE_ID, INA226_DIE_ID_K)].

Definition healthy (rs : list (Z * Z)) : world sim :=
  mkWorld (mkSim rs 0 [] false) [].

(** A bus on which every call fails. *)
Definition dead : world sim := mkWorld (mkSim [] 0 [] true) [].

(** A bus that fails as the script says and works afterwards. *)
Definition flaky (rs : list (Z * Z)) (fs : list bool) : world sim :=
  mkWorld (mkSim rs 0 fs false) [].

Definition fresh_config : INA226_config := INA226_Constructor (mkConfig true 9 9 9 9 9 9) 1 0x40.
Definition fresh_device : INA226 := mkINA226 fresh_config (mkResult 0 0 0 0).

(** A device as initialisation with a 0.01 ohm shunt and 20 A leaves it. *)
Definition ready_config : INA226_config :=
  mkConfig true 1 0x40 INA226_CONFIG_DEFAULT 852 611 15275.

(** The doubles nearest to 0.01 and equal to 20. *)
Definition ohms_0_01 : double := S754_finite false 5764607523034235 (-59).
Definition amps_20 : double := double_of_Z 20.

(** The double nearest to 0.001, and the double 1. *)
Definition ohms_0_001 : double := ddiv (double_of_Z 1) (double_of_Z 1000).
Definition amps_1 : double := double_of_Z 1.

(** The double nearest to 0.00512, the constant the comment in
    [INA226_setupCalibration] names. *)
Definition lit_0_00512 : double := S754_finite false 5902958103587057 (-60).

(** The driver on the simulated bus, with the data-sheet enumerators. *)
Definition sim_GetShuntVoltage_uV := INA226_GetShuntVoltage_uV sim sim_Transmit sim_Receive.
Definition sim_GetCurrent_uA := INA226_GetCurrent_uA sim sim_Transmit sim_Receive.
Definition sim_GetPower_uW := INA226_GetPower_uW sim sim_Transmit sim_Receive.
Definition sim_MeasureAll := INA226_MeasureAll sim sim_Transmit sim_Receive.
Definition sim_setupCalibration := INA226_setupCalibration sim sim_Transmit.
Definition sim_Init := INA226_Init sim sim_Check_device sim_Transmit sim_Receive.
Definition sim_Hibernate := INA226_Hibernate sim sim_Transmit sim_Receive.
Definition sim_Wakeup :=
  INA226_Wakeup sim sim_Transmit ds_Shutdown ds_ShuntAndBusVoltageContinuous.
Definition sim_ConfigureAlertPinTrigger :=
  INA226_ConfigureAlertPinTrigger
    sim sim_Transmit sim_Receive ds_PowerOverLimit ds_ClearTriggers
    ds_ConversionReady ds_ShuntVoltageOverLimit ds_ShuntVoltageUnderLimit
    ds_BusVoltageOverLimit ds_BusVoltageUnderLimit.
Definition sim_ConfigureNumSampleAveraging :=
  INA226_ConfigureNumSampleAveraging sim sim_Transmit sim_Receive.
Definition sim_ConfigureVoltageConversionTime :=
  INA226_ConfigureVoltageConversionTime sim sim_Transmit sim_Receive.

Definition ds_Unknown : Z := 0.
Definition sim_SetOperatingMode :=
  INA226_SetOperatingMode sim sim_Transmit sim_Receive.
Definition sim_ResetAlertPin :=
  INA226_ResetAlertPin sim sim_Transmit sim_Receive ds_Unknown.
Definition sim_alert_value :=
  alert_value ds_PowerOverLimit ds_ClearTriggers ds_ConversionReady
              ds_ShuntVoltageOverLimit ds_ShuntVoltageUnderLimit
              ds_BusVoltageOverLimit ds_BusVoltageUnderLimit.

(** What a caller sees of a run: the status, the initialised flag it
    leaves, and the log of transport calls. *)
Definition observe (r : option (status * INA226 * world sim))
  : option (status * bool * list event) :=
  option_map (fun x => (fst (fst x), mInitialized (Config (snd (fst x))),
                        trace (snd x))) r.

(* ================================================================== *)
(** * What one register access does to the bus *)

(** The transport calls of one [INA226_ReadRegister], with the status and
    the value it leaves in [*aValue_p]. *)
Inductive read_run (this : INA226_config) (aRegister : Z)
  : status -> Z -> list event -> Prop :=
| read_transmit_failed (t : Z) :
    t <> 0 ->
    read_run this aRegister FAIL 0
             [EvTransmit (hi2c this) (mI2C_Address this) [to_uint8 aRegister] t]
| read_receive_failed (buffer : list Z) (r : Z) :
    r <> 0 ->
    read_run this aRegister FAIL 0
             [EvTransmit (hi2c this) (mI2C_Address this) [to_uint8 aRegister] 0;
              EvReceive (hi2c this) (mI2C_Address this) 2 buffer r]
| read_succeeded (buffer : list Z) :
    read_run this aRegister OK (buffer_value buffer)
             [EvTransmit (hi2c this) (mI2C_Address this) [to_uint8 aRegister] 0;
              EvReceive (hi2c this) (mI2C_Address this) 2 buffer 0].

(** The bytes of one [INA226_WriteRegister]. *)
Definition write_bytes (aRegister aValue : Z) : list Z :=
  [to_uint8 aRegister;
   to_uint8 (Z.land (Z.shiftr (to_uint16 aValue) 8) 0xFF);
   to_uint8 (Z.land (to_uint16 aValue) 0xFF)].

(** A transport call that reported a failure. *)
Definition failed (e : event) : bool :=
  match e with
  | EvCheck _ _ _ r | EvTransmit _ _ _ r | EvReceive _ _ _ _ r => negb (r =? 0)
  end.

(** A receive that reported success. *)
Definition receive_ok (e : event) : bool :=
  match e with
  | EvReceive _ _ _ _ r => r =? 0
  | _ => false
  end.

(** The transport calls a read of register [aRegister] is made of. *)
Definition read_event (this : INA226_config) (aRegister : Z) (e : event) : Prop :=
  match e with
  | EvTransmit h a [r] _ =>
      h = hi2c this /\ a = mI2C_Address this /\ r = to_uint8 aRegister
  | EvReceive h a 2 _ _ => h = hi2c this /\ a = mI2C_Address this
  | _ => False
  end.

(** The conversion-time index in both of its fields. *)
Definition conversion_time_field (i : Z) : Z :=
  Z.lor (Z.shiftl i cBusVoltConvTimeIdxShift) (Z.shiftl i cShuntVoltConvTimeIdxShift).

(** What a read-modify-write of the configuration register may leave on
    the bus, as [evs], and in the device, as [this']: either the read that
    precedes the write failed and nothing was written, or the last two
    transport calls are a successful receive of the register and the
    transmit of a value [new] that agrees with the received one outside
    [mask] and holds [field] under [mask]. *)
Definition rmw_outcome (this : INA226_config) (mask field : Z)
           (this' : INA226_config) (evs : list event) : Prop :=
  (Forall (fun e => is_write e = false) evs
   /\ exists pre e, evs = pre ++ [e] /\ failed e = true)
  \/ (exists pre buffer new t,
         evs = pre ++ [EvReceive (hi2c this) (mI2C_Address this) 2 buffer 0;
                       EvTransmit (hi2c this) (mI2C_Address this)
                                  (write_bytes INA226_CONFIG new) t]
         /\ Forall (fun e => is_write e = false) pre
         /\ this' = set_mConfigRegister this new
         /\ 0 <= new < 2 ^ 16
         /\ Z.land new (Z.lnot mask) = Z.land (buffer_value buffer) (Z.lnot mask)
         /\ Z.land new mask = field).

(** How [INA226_Init] may end, for the bus handle and address it was given
    and the calibration numbers [cur] and [cal] its arguments lead to: the
    handle and the address are recorded in every case, and then either
    - it returned before any register write, with the device as
      constructed and not initialised;
    - or it returned after the writes began, not initialised;
    - or it ran to its end: initialised, status [OK], the default
      configuration read back and cached, the calibration stored. *)
Definition Init_outcome (i2c_device aI2C_Address cur cal : Z)
           (st : status) (cfg : INA226_config) (evs : list event) : Prop :=
  hi2c cfg = i2c_device
  /\ mI2C_Address cfg = to_uint8 aI2C_Address
  /\ ((mInitialized cfg = false
       /\ Forall (fun e => is_write e = false) evs
       /\ mConfigRegister cfg = 0 /\ mCalibrationValue cfg = 0
       /\ mCurrentMicroAmpsPerBit cfg = 0 /\ mPowerMicroWattPerBit cfg = 0
       /\ (st = OK \/ st = FAIL \/ st = INVALID_I2C_ADDRESS
           \/ st = INA226_TI_ID_MISMATCH \/ st = INA226_DIE_ID_MISMATCH))
      \/ (mInitialized cfg = false
          /\ (st = OK \/ st = FAIL \/ st = CONFIG_ERROR))
      \/ (mInitialized cfg = true
          /\ st = OK
          /\ mConfigRegister cfg = INA226_CONFIG_DEFAULT
          /\ mCalibrationValue cfg = cal
          /\ mCurrentMicroAmpsPerBit cfg = cur
          /\ mPowerMicroWattPerBit cfg = to_int32 (cur * INA226_POWER_LSB_FACTOR))).

(* ================================================================== *)
(** * Integer lemmas *)

Lemma to_int32_small (z : Z) : INT32_MIN <= z <= INT32_MAX -> to_int32 z = z.
Proof.
  unfold to_int32, INT32_MIN, INT32_MAX. intros H.
  rewrite Z.mod_small; lia.
Qed.

Lemma to_int16_range (z : Z) : - 2 ^ 15 <= to_int16 z < 2 ^ 15.
Proof.
  unfold to_int16.
  pose proof (Z.mod_pos_bound (z + 2 ^ 15) (2 ^ 16) ltac:(lia)). lia.
Qed.

Lemma to_uint16_range (z : Z) : 0 <= to_uint16 z < 2 ^ 16.
Proof. unfold to_uint16. apply Z.mod_pos_bound. lia. Qed.

Lemma to_uint16_small (z : Z) : 0 <= z < 2 ^ 16 -> to_uint16 z = z.
Proof. unfold to_uint16. intros H. apply Z.mod_small. exact H. Qed.

Lemma to_uint8_range (z : Z) : 0 <= to_uint8 z < 2 ^ 8.
Proof. unfold to_uint8. apply Z.mod_pos_bound. lia. Qed.

Lemma buffer_value_range (buffer : list Z) : 0 <= buffer_value buffer < 2 ^ 16.
Proof. apply to_uint16_range. Qed.

Lemma to_uint16_land (z : Z) : to_uint16 z = Z.land z (Z.ones 16).
Proof. unfold to_uint16. rewrite Z.land_ones by lia. reflexivity. Qed.

Lemma uint16_land_ones (z : Z) : 0 <= z < 2 ^ 16 -> Z.land z (Z.ones 16) = z.
Proof. intros H. rewrite Z.land_ones by lia. apply Z.mod_small. exact H. Qed.

Lemma to_uint16_of_land (f m : Z) :
  0 <= f < 2 ^ 16 -> to_uint16 (Z.land f m) = Z.land f m.
Proof.
  intros H. rewrite to_uint16_land, <- Z.land_assoc, (Z.land_comm m).
  rewrite Z.land_assoc, (uint16_land_ones f H). reflexivity.
Qed.

Lemma to_uint16_of_lor (a b : Z) :
  to_uint16 a = a -> to_uint16 b = b -> to_uint16 (Z.lor a b) = Z.lor a b.
Proof.
  rewrite !to_uint16_land. intros Ha Hb.
  rewrite Z.land_lor_distr_l, Ha, Hb. reflexivity.
Qed.

(** Replacing the bits under a mask [M] by a field value [C] that lies
    within the mask: the other bits stay, the field reads back. *)
Lemma field_update (f M C : Z) :
  Z.land C M = C ->
  Z.land (Z.lor (Z.land f (Z.lnot M)) C) (Z.lnot M) = Z.land f (Z.lnot M)
  /\ Z.land (Z.lor (Z.land f (Z.lnot M)) C) M = C.
Proof.
  intros HC.
  assert (HM : Z.land (Z.lnot M) M = 0)
    by (rewrite Z.land_comm; apply Z.land_lnot_diag).
  rewrite !Z.land_lor_distr_l, <- !Z.land_assoc, Z.land_diag, HM, Z.land_0_r.
  rewrite Z.lor_0_l, HC. split; [| reflexivity].
  rewrite <- HC, <- Z.land_assoc, (Z.land_comm M), HM, Z.land_0_r, Z.lor_0_r.
  reflexivity.
Qed.

Lemma three_bit_cases (i : Z) :
  0 <= i <= 7 -> i = 0 \/ i = 1 \/ i = 2 \/ i = 3 \/ i = 4 \/ i = 5 \/ i = 6 \/ i = 7.
Proof. lia. Qed.

(** The value a register write puts on the bus reads back from its bytes,
    high byte first. *)
Lemma written_write_bytes (h a aRegister aValue t : Z) :
  written (EvTransmit h a (write_bytes aRegister aValue) t)
  = Some (to_uint8 aRegister, to_uint16 aValue).
Proof.
  unfold written, write_bytes. f_equal. f_equal.
  pose proof (to_uint16_range aValue) as Hv.
  set (v := to_uint16 aValue) in *.
  unfold to_uint8.
  change 0xFF with (Z.ones 8). rewrite !Z.land_ones by lia.
  rewrite !Z.mod_mod by lia.
  apply Z.bits_inj'. intros n Hn.
  rewrite Z.lor_spec.
  destruct (Z.ltb_spec n 8) as [Hlow | Hhigh].
  - rewrite Z.shiftl_spec_low by exact Hlow.
    rewrite Z.mod_pow2_bits_low by lia. reflexivity.
  - rewrite Z.shiftl_spec_high by lia.
    rewrite (Z.mod_pow2_bits_high v 8 n) by lia.
    rewrite orb_false_r.
    destruct (Z.ltb_spec (n - 8) 8) as [Hmid | Htop].
    + rewrite Z.mod_pow2_bits_low by lia.
      rewrite Z.shiftr_spec by lia. f_equal. lia.
    + rewrite Z.mod_pow2_bits_high by lia.
      rewrite <- (Z.mod_small v (2 ^ 16)) by exact Hv.
      rewrite Z.mod_pow2_bits_high by lia. reflexivity.
Qed.

(** The count [(v * 2) / 5] of a shunt threshold, and what 2.5 microvolts
    per count make of it. *)
Lemma shunt_threshold_arith (v : Z) :
  -81920 <= v <= 81919 ->
  - 2 ^ 15 <= Z.quot (v * 2) 5 < 2 ^ 15
  /\ Z.abs (Z.quot (v * 2) 5 * 2 + Z.quot (v * 2) 5 / 2) <= Z.abs v
  /\ Z.abs (v - (Z.quot (v * 2) 5 * 2 + Z.quot (v * 2) 5 / 2)) <= 2.
Proof.
  intros Hv. change (2 ^ 15) with 32768.
  repeat split; Z.to_euclidean_division_equations; lia.
Qed.

Lemma status_eqb_OK (s : status) : status_eqb s OK = true <-> s = OK.
Proof. destruct s; simpl; split; congruence. Qed.

(* ================================================================== *)
(** * Doubles that hold integers *)

Lemma iter_xO_value (p j : positive) :
  Zpos (Pos.iter xO p j) = Zpos p * 2 ^ Zpos j.
Proof.
  induction j as [| j IH] using Pos.peano_ind.
  - simpl. lia.
  - rewrite Pos.iter_succ, Pos2Z.inj_xO, IH, Pos2Z.inj_succ, Z.pow_succ_r by lia.
    lia.
Qed.

Lemma iter_xO_digits (p j : positive) :
  digits2_pos (Pos.iter xO p j) = (digits2_pos p + j)%positive.
Proof.
  induction j as [| j IH] using Pos.peano_ind.
  - simpl. lia.
  - rewrite Pos.iter_succ. simpl. rewrite IH. lia.
Qed.

Lemma pow2_pos_value (k : positive) : Zpos (pow2_pos k) = 2 ^ Zpos k.
Proof. unfold pow2_pos. rewrite iter_xO_value. lia. Qed.

Lemma digits2_pos_bound (p : positive) :
  forall n, 0 <= n -> Zpos p < 2 ^ n -> Zpos (digits2_pos p) <= n.
Proof.
  induction p as [p IH | p IH |]; intros n Hn Hp.
  - assert (n <> 0) by (intros ->; simpl in Hp; lia).
    replace n with (Z.succ (n - 1)) in Hp by lia.
    rewrite Z.pow_succ_r in Hp by lia.
    specialize (IH (n - 1) ltac:(lia) ltac:(lia)).
    simpl digits2_pos. lia.
  - assert (n <> 0) by (intros ->; simpl in Hp; lia).
    replace n with (Z.succ (n - 1)) in Hp by lia.
    rewrite Z.pow_succ_r in Hp by lia.
    specialize (IH (n - 1) ltac:(lia) ltac:(lia)).
    simpl digits2_pos. lia.
  - assert (n <> 0) by (intros ->; simpl in Hp; lia).
    simpl. lia.
Qed.

Lemma binary_round_aux_exact (s : bool) (mz : positive) (ez : Z) :
  Zpos (digits2_pos mz) = 53 -> -1074 <= ez <= 971 ->
  binary_round_aux 53 1024 s (Zpos mz) ez loc_Exact = S754_finite s mz ez.
Proof.
  intros Hd He.
  unfold binary_round_aux, shr_fexp. simpl Zdigits2. rewrite Hd.
  assert (F : fexp 53 1024 (53 + ez) - ez = 0).
  { unfold fexp, emin. lia. }
  simpl shr_record_of_loc. rewrite F. simpl shr.
  cbv beta iota zeta delta [shr_m loc_of_shr_record round_nearest_even Zdigits2].
  rewrite Hd, F. simpl shr. cbv beta iota zeta delta [shr_m].
  change (1024 - 53) with 971.
  destruct (ez <=? 971) eqn:E; [reflexivity | apply Z.leb_gt in E; lia].
Qed.

Lemma binary_round_exact (s : bool) (p : positive) :
  Zpos p < 2 ^ 53 ->
  exists mz ez,
    binary_round 53 1024 s p 0 = S754_finite s mz ez
    /\ -52 <= ez <= 0
    /\ Zpos mz = Zpos p * 2 ^ (- ez).
Proof.
  intros Hp.
  pose proof (digits2_pos_bound p 53 ltac:(lia) Hp) as Hd.
  unfold binary_round, shl_align.
  assert (F : fexp 53 1024 (Zpos (digits2_pos p) + 0) = Zpos (digits2_pos p) - 53).
  { unfold fexp, emin. lia. }
  rewrite F.
  destruct (Zpos (digits2_pos p) - 53 - 0) as [| j | j] eqn:Ej; try lia.
  - rewrite binary_round_aux_exact by lia.
    exists p, 0. split; [reflexivity | split; [lia |]]. simpl. lia.
  - rewrite binary_round_aux_exact.
    + exists (Pos.iter xO p j), (Zpos (digits2_pos p) - 53).
      split; [reflexivity | split; [lia |]].
      rewrite iter_xO_value. f_equal. f_equal. lia.
    + rewrite iter_xO_digits. lia.
    + lia.
Qed.

Lemma Qtrunc_inject_Z (z : Z) : Qtrunc (inject_Z z) = z.
Proof. unfold Qtrunc, inject_Z. simpl. apply Z.quot_1_r. Qed.

Lemma in_range_some (lo hi z : Z) :
  lo <= z <= hi -> (if (lo <=? z) && (z <=? hi) then Some z else None) = Some z.
Proof.
  intros H.
  destruct (lo <=? z) eqn:E1; [| apply Z.leb_gt in E1; lia].
  destruct (z <=? hi) eqn:E2; [| apply Z.leb_gt in E2; lia].
  reflexivity.
Qed.

Lemma double_to_integer_finite (lo hi : Z) (s : bool) (mz : positive) (ez n : Z) :
  -52 <= ez <= 0 ->
  signed_mantissa s mz = n * 2 ^ (- ez) ->
  lo <= n <= hi ->
  double_to_integer lo hi (S754_finite s mz ez) = Some n.
Proof.
  intros He Hm Hn. unfold double_to_integer, double_value.
  assert (T : Qtrunc match ez with
                     | Zneg k => Qmake (signed_mantissa s mz) (pow2_pos k)
                     | _ => inject_Z (signed_mantissa s mz * 2 ^ ez)
                     end = n).
  { destruct ez as [| k | k]; try lia.
    - rewrite Qtrunc_inject_Z, Hm. simpl. lia.
    - unfold Qtrunc. simpl Qnum. simpl Qden.
      rewrite pow2_pos_value, Hm. change (- Zneg k) with (Zpos k).
      apply Z.quot_mul. lia. }
  cbv zeta. rewrite T. apply in_range_some. exact Hn.
Qed.

Lemma double_to_integer_of_Z (lo hi n : Z) :
  n <> 0 -> - 2 ^ 53 < n < 2 ^ 53 -> lo <= n <= hi ->
  double_to_integer lo hi (double_of_Z n) = Some n.
Proof.
  intros Hn0 Hb Hn. unfold double_of_Z, binary_normalize.
  destruct n as [| p | p]; [contradiction | |].
  - destruct (binary_round_exact false p ltac:(lia)) as (mz & ez & E & He & Hm).
    rewrite E. apply double_to_integer_finite; try assumption.
  - destruct (binary_round_exact true p ltac:(lia)) as (mz & ez & E & He & Hm).
    rewrite E. apply double_to_integer_finite; try assumption.
    simpl signed_mantissa. lia.
Qed.

Lemma double_to_integer_integral (lo hi z : Z) :
  lo <= z <= hi ->
  (let q := inject_Z z in
   let t := Qtrunc q in
   if (lo <=? t) && (t <=? hi) then Some t else None) = Some (Qceiling (inject_Z z)).
Proof.
  intros H. cbv zeta. rewrite Qtrunc_inject_Z, Qceiling_Z.
  apply in_range_some. exact H.
Qed.

(** The conversion of [ceil x] to an integer type gives the ceiling of the
    real value of [x], when that fits the type and is below 2^53. *)
Lemma double_to_integer_ceil (lo hi : Z) (x : double) (q : Q) :
  double_value x = Some q ->
  - 2 ^ 53 < Qceiling q < 2 ^ 53 ->
  lo <= Qceiling q <= hi ->
  double_to_integer lo hi (ceil x) = Some (Qceiling q).
Proof.
  intros Hv Hb Hn.
  destruct x as [s | s | | s m e]; try discriminate Hv.
  - cbn [double_value] in Hv. injection Hv as <-.
    rewrite Qceiling_Z in Hn.
    exact (double_to_integer_integral lo hi 0 Hn).
  - destruct e as [| k | k].
    + cbn [double_value] in Hv. injection Hv as <-.
      rewrite Qceiling_Z in Hn.
      exact (double_to_integer_integral lo hi _ Hn).
    + cbn [double_value] in Hv. injection Hv as <-.
      rewrite Qceiling_Z in Hn.
      exact (double_to_integer_integral lo hi _ Hn).
    + cbn [double_value] in Hv. injection Hv as <-. cbn [ceil].
      destruct (Qceiling (signed_mantissa s m # pow2_pos k) =? 0) eqn:E0.
      * apply Z.eqb_eq in E0. rewrite E0 in Hn |- *.
        exact (double_to_integer_integral lo hi 0 Hn).
      * apply Z.eqb_neq in E0. apply double_to_integer_of_Z; assumption.
Qed.

(* ================================================================== *)
(** * Properties that hold on every bus *)

Section Properties.

Variable bus : Type.
Variable Check_device : Z -> Z -> Z -> Z -> bus -> Z * bus.
Variable Transmit : Z -> Z -> list Z -> bus -> Z * bus.
Variable Receive : Z -> Z -> nat -> bus -> (list Z * Z) * bus.

Variables Shutdown ShuntAndBusVoltageContinuous : Z.
Variables PowerOverLimit ClearTriggers ConversionReady : Z.
Variables ShuntVoltageOverLimit ShuntVoltageUnderLimit : Z.
Variables BusVoltageOverLimit BusVoltageUnderLimit : Z.
Variable Unknown : Z.

Local Abbreviation ReadRegister := (INA226_ReadRegister bus Transmit Receive).
Local Abbreviation WriteRegister := (INA226_WriteRegister bus Transmit).

Lemma ReadRegister_run (this : INA226_config) (aRegister : Z) (w : world bus) :
  exists st v b evs,
    ReadRegister this aRegister w = Some ((st, v), mkWorld b (trace w ++ evs))
    /\ read_run this aRegister st v evs.
Proof.
  unfold INA226_ReadRegister, bind, call_Transmit, call_Receive, ret.
  destruct (Transmit _ _ _ _) as [t b]. simpl.
  destruct (t =? 0) eqn:Et.
  - apply Z.eqb_eq in Et. subst t.
    destruct (Receive _ _ _ _) as [[buffer r] b']. simpl.
    rewrite <- app_assoc. simpl.
    destruct (r =? 0) eqn:Er.
    + apply Z.eqb_eq in Er. subst r.
      do 4 eexists. split; [reflexivity | constructor].
    + apply Z.eqb_neq in Er.
      do 4 eexists. split; [reflexivity | constructor; assumption].
  - apply Z.eqb_neq in Et.
    do 4 eexists. split; [reflexivity | constructor; assumption].
Qed.

Lemma WriteRegister_run (this : INA226_config) (aRegister aValue : Z)
      (w : world bus) :
  exists t b,
    WriteRegister this aRegister aValue w
    = Some (if t =? 0 then OK else FAIL,
            mkWorld b (trace w ++
                       [EvTransmit (hi2c this) (mI2C_Address this)
                                   (write_bytes aRegister aValue) t])).
Proof.
  unfold INA226_WriteRegister, bind, call_Transmit, ret, write_bytes.
  destruct (Transmit _ _ _ _) as [t b]. simpl.
  exists t, b. destruct (t =? 0); reflexivity.
Qed.

(** ** Measurements *)

(** C10.  On a device whose scale factors still hold the zero the
    constructor gave them, [INA226_GetCurrent_uA] and
    [INA226_GetPower_uW] return exactly 0, whatever the register holds
    and whatever the transport answers; the result is a plain value and
    carries no error. *)
Theorem uncalibrated_current_and_power_read_zero
        (this : INA226) (w : world bus) :
  mCurrentMicroAmpsPerBit (Config this) = 0 ->
  mPowerMicroWattPerBit (Config this) = 0 ->
  (exists w', INA226_GetCurrent_uA bus Transmit Receive this w = Some (0, w'))
  /\ (exists w', INA226_GetPower_uW bus Transmit Receive this w = Some (0, w')).
Proof.
  intros Hc Hp. unfold INA226_GetCurrent_uA, INA226_GetPower_uW, bind, ret.
  split.
  - destruct (ReadRegister_run (Config this) INA226_CURRENT w)
      as (st & v & b & evs & E & _).
    rewrite E, Hc, Z.mul_0_r. eexists. reflexivity.
  - destruct (ReadRegister_run (Config this) INA226_POWER w)
      as (st & v & b & evs & E & _).
    rewrite E, Hp, Z.mul_0_r. eexists. reflexivity.
Qed.

(** C5.  [INA226_GetShuntVoltage_uV] reads the shunt-voltage register,
    takes its content as a signed 16-bit count [raw] and returns
    [(raw >> 1) + (raw << 1)], the shift to the right keeping the sign:
    that is [raw * 2 + floor (raw / 2)].  On a chip whose register holds
    the count -100 (0xFF9C) the result is -250. *)
Theorem shunt_voltage_is_two_and_a_half_counts :
  (forall (this : INA226) (w : world bus),
      exists st v w',
        ReadRegister (Config this) INA226_SHUNT_VOLTAGE w = Some ((st, v), w')
        /\ INA226_GetShuntVoltage_uV bus Transmit Receive this w
           = Some (Z.shiftr (to_int16 v) 1 + Z.shiftl (to_int16 v) 1, w')
        /\ Z.shiftr (to_int16 v) 1 + Z.shiftl (to_int16 v) 1
           = to_int16 v * 2 + to_int16 v / 2)
  /\ to_int16 0xFF9C = -100
  /\ INA226_GetShuntVoltage_uV sim sim_Transmit sim_Receive fresh_device
                               (healthy [(INA226_SHUNT_VOLTAGE, 0xFF9C)])
     = Some (-250,
             mkWorld (mkSim [(INA226_SHUNT_VOLTAGE, 0xFF9C)]
                            INA226_SHUNT_VOLTAGE [] false)
                     [EvTransmit 1 0x40 [INA226_SHUNT_VOLTAGE] 0;
                      EvReceive 1 0x40 2 [0xFF; 0x9C] 0]).
Proof.
  split; [| split; reflexivity].
  intros this w.
  destruct (ReadRegister_run (Config this) INA226_SHUNT_VOLTAGE w)
    as (st & v & b & evs & E & _).
  exists st, v, (mkWorld b (trace w ++ evs)).
  split; [exact E |].
  pose proof (to_int16_range v) as R.
  rewrite Z.shiftr_div_pow2, Z.shiftl_mul_pow2 by lia.
  change (2 ^ 1) with 2.
  split; [| lia].
  unfold INA226_GetShuntVoltage_uV, bind, ret. rewrite E.
  assert (D : - 2 ^ 14 <= to_int16 v / 2 < 2 ^ 14).
  { split.
    - apply Z.div_le_lower_bound; lia.
    - apply Z.div_lt_upper_bound; lia. }
  rewrite Z.shiftr_div_pow2, Z.shiftl_mul_pow2 by lia.
  change (2 ^ 1) with 2.
  rewrite (to_int32_small (to_int16 v / 2))
    by (unfold INT32_MIN, INT32_MAX; lia).
  rewrite (to_int32_small (to_int16 v * 2))
    by (unfold INT32_MIN, INT32_MAX; lia).
  rewrite to_int32_small by (unfold INT32_MIN, INT32_MAX; lia).
  reflexivity.
Qed.

(** ** The two evaluations of a register read under [CALL_FN] *)

Lemma read_run_set_mConfigRegister (this : INA226_config) (c aRegister : Z)
      (st : status) (v : Z) (evs : list event) :
  read_run (set_mConfigRegister this c) aRegister st v evs ->
  read_run this aRegister st v evs.
Proof.
  intros R. destruct R; simpl; constructor; assumption.
Qed.

Lemma CALL_FN_read_config (k : INA226_config -> io bus (status * INA226_config))
      (this : INA226_config) (w : world bus) :
  exists s1 v1 evs1 s2 v2 evs2 b,
    read_run this INA226_CONFIG s1 v1 evs1
    /\ read_run this INA226_CONFIG s2 v2 evs2
    /\ CALL_FN bus (read_into_mConfigRegister bus Transmit Receive) k this w
       = (if status_eqb s2 OK then k (set_mConfigRegister this v2)
          else ret bus (s1, set_mConfigRegister this v2))
           (mkWorld b (trace w ++ evs1 ++ evs2)).
Proof.
  destruct (ReadRegister_run this INA226_CONFIG w)
    as (s1 & v1 & b1 & evs1 & E1 & R1).
  destruct (ReadRegister_run (set_mConfigRegister this v1) INA226_CONFIG
                             (mkWorld b1 (trace w ++ evs1)))
    as (s2 & v2 & b2 & evs2 & E2 & R2).
  exists s1, v1, evs1, s2, v2, evs2, b2.
  split; [exact R1 | split; [exact (read_run_set_mConfigRegister _ _ _ _ _ _ R2) |]].
  unfold CALL_FN, bind, read_into_mConfigRegister.
  unfold bind. rewrite E1. unfold ret at 1. rewrite E2. unfold ret at 1.
  simpl trace. rewrite <- app_assoc.
  destruct (status_eqb s2 OK); reflexivity.
Qed.

Lemma CALL_FN_read_local (aRegister : Z)
      (k : INA226_config * Z -> io bus (status * (INA226_config * Z)))
      (this : INA226_config) (l : Z) (w : world bus) :
  exists s1 v1 evs1 s2 v2 evs2 b,
    read_run this aRegister s1 v1 evs1
    /\ read_run this aRegister s2 v2 evs2
    /\ CALL_FN bus (read_into_local bus Transmit Receive aRegister) k (this, l) w
       = (if status_eqb s2 OK then k (this, v2) else ret bus (s1, (this, v2)))
           (mkWorld b (trace w ++ evs1 ++ evs2)).
Proof.
  destruct (ReadRegister_run this aRegister w)
    as (s1 & v1 & b1 & evs1 & E1 & R1).
  destruct (ReadRegister_run this aRegister (mkWorld b1 (trace w ++ evs1)))
    as (s2 & v2 & b2 & evs2 & E2 & R2).
  exists s1, v1, evs1, s2, v2, evs2, b2.
  split; [exact R1 | split; [exact R2 |]].
  unfold CALL_FN, bind, read_into_local.
  unfold bind. simpl fst. rewrite E1. unfold ret at 1. simpl fst.
  rewrite E2. unfold ret at 1.
  simpl trace. rewrite <- app_assoc.
  destruct (status_eqb s2 OK); reflexivity.
Qed.

Lemma read_run_value_range (this : INA226_config) (aRegister : Z)
      (st : status) (v : Z) (evs : list event) :
  read_run this aRegister st v evs -> 0 <= v < 2 ^ 16.
Proof.
  intros R. destruct R; try lia. apply buffer_value_range.
Qed.

Lemma read_run_no_write (this : INA226_config) (aRegister : Z)
      (st : status) (v : Z) (evs : list event) :
  read_run this aRegister st v evs -> Forall (fun e => is_write e = false) evs.
Proof.
  intros R. destruct R; repeat constructor.
Qed.

(** ** The initialised guard *)

(** C2, as the code has it.  On a device whose initialised flag is not
    set, every operation that starts with [CHECK_INITIALIZED] (hibernate,
    wake-up, operating mode, alert pin trigger, alert pin reset, conversion
    time, averaging, the debug read of the configuration) returns
    [NOT_INITIALIZED] and leaves the bus and its log as they were.  The
    four measurement getters carry no such guard: each performs the
    transport calls of one register read and returns a value. *)
Theorem guarded_operations_need_initialisation
        (this : INA226_config) (dev : INA226) (w : world bus)
        (aOpMode aAlertTrigger aValue aIndex : Z) (aLatching : bool) :
  mInitialized this = false ->
  INA226_Hibernate bus Transmit Receive this w = Some ((NOT_INITIALIZED, this), w)
  /\ INA226_Wakeup bus Transmit Shutdown ShuntAndBusVoltageContinuous this w
     = Some ((NOT_INITIALIZED, this), w)
  /\ INA226_SetOperatingMode bus Transmit Receive this aOpMode w
     = Some ((NOT_INITIALIZED, this), w)
  /\ INA226_ConfigureAlertPinTrigger
       bus Transmit Receive PowerOverLimit ClearTriggers ConversionReady
       ShuntVoltageOverLimit ShuntVoltageUnderLimit BusVoltageOverLimit
       BusVoltageUnderLimit this aAlertTrigger aValue aLatching w
     = Some ((NOT_INITIALIZED, this), w)
  /\ INA226_ResetAlertPin bus Transmit Receive Unknown this w
     = Some ((NOT_INITIALIZED, (this, Unknown)), w)
  /\ INA226_ConfigureVoltageConversionTime bus Transmit Receive this aIndex w
     = Some ((NOT_INITIALIZED, this), w)
  /\ INA226_ConfigureNumSampleAveraging bus Transmit Receive this aIndex w
     = Some ((NOT_INITIALIZED, this), w)
  /\ INA226_Debug_GetConfigRegister bus Transmit Receive this w
     = Some ((NOT_INITIALIZED, this, None), w)
  /\ (forall get reg,
         In (get, reg)
            [(INA226_GetShuntVoltage_uV bus Transmit Receive, INA226_SHUNT_VOLTAGE);
             (INA226_GetBusVoltage_uV bus Transmit Receive, INA226_BUS_VOLTAGE);
             (INA226_GetCurrent_uA bus Transmit Receive, INA226_CURRENT);
             (INA226_GetPower_uW bus Transmit Receive, INA226_POWER)] ->
         exists value st v b evs,
           get dev w = Some (value, mkWorld b (trace w ++ evs))
           /\ read_run (Config dev) reg st v evs).
Proof.
  intros H.
  unfold INA226_Hibernate, INA226_Wakeup, INA226_SetOperatingMode,
    INA226_ConfigureAlertPinTrigger, INA226_ResetAlertPin,
    INA226_ConfigureVoltageConversionTime, INA226_ConfigureNumSampleAveraging,
    INA226_Debug_GetConfigRegister, CHECK_INITIALIZED.
  rewrite H. cbn [negb].
  repeat (split; [reflexivity |]).
  intros get reg Hin.
  destruct (ReadRegister_run (Config dev) reg w) as (st & v & b & evs & E & R).
  simpl in Hin.
  destruct Hin as [Hin | [Hin | [Hin | [Hin | []]]]]; inversion Hin; subst get reg;
    unfold INA226_GetShuntVoltage_uV, INA226_GetBusVoltage_uV,
      INA226_GetCurrent_uA, INA226_GetPower_uW, bind, ret; rewrite E;
    do 5 eexists; (split; [reflexivity | exact R]).
Qed.

(** ** Hibernate and wake-up *)

Lemma Hibernate_run (this : INA226_config) (w : world bus) :
  mInitialized this = true ->
  exists st snapshot w1,
    INA226_Hibernate bus Transmit Receive this w
    = Some ((st, set_mConfigRegister this snapshot), w1)
    /\ 0 <= snapshot < 2 ^ 16.
Proof.
  intros Hi. unfold INA226_Hibernate, CHECK_INITIALIZED. rewrite Hi. cbn [negb].
  match goal with
  | |- context [CALL_FN _ _ ?k _ _] =>
      destruct (CALL_FN_read_config k this w)
        as (s1 & v1 & evs1 & s2 & v2 & evs2 & b & R1 & R2 & E)
  end.
  rewrite E. clear E.
  pose proof (read_run_value_range _ _ _ _ _ R2) as Hv.
  destruct (status_eqb s2 OK).
  - unfold write_step, bind.
    match goal with
    | |- context [WriteRegister ?c ?r ?v ?w0] =>
        destruct (WriteRegister_run c r v w0) as (t & b' & E)
    end.
    rewrite E. unfold ret. do 3 eexists. split; [reflexivity | exact Hv].
  - unfold ret. do 3 eexists. split; [reflexivity | exact Hv].
Qed.

Lemma Wakeup_run (this : INA226_config) (w : world bus) :
  mInitialized this = true ->
  0 <= mConfigRegister this < 2 ^ 16 ->
  0 <= ShuntAndBusVoltageContinuous <= 7 ->
  exists st v t b,
    INA226_Wakeup bus Transmit Shutdown ShuntAndBusVoltageContinuous this w
    = Some ((st, set_mConfigRegister this v),
            mkWorld b (trace w ++
                       [EvTransmit (hi2c this) (mI2C_Address this)
                                   (write_bytes INA226_CONFIG v) t]))
    /\ v = (if (Z.land (mConfigRegister this) cOperatingModeMask =? Shutdown)
               || (Z.land (mConfigRegister this) cOperatingModeMask =? 0)
            then Z.lor (Z.land (mConfigRegister this) (Z.lnot cOperatingModeMask))
                       ShuntAndBusVoltageContinuous
            else mConfigRegister this).
Proof.
  intros Hi Hc Hs. unfold INA226_Wakeup, CHECK_INITIALIZED. rewrite Hi. cbn [negb].
  rewrite !to_uint16_of_land by exact Hc.
  destruct ((Z.land (mConfigRegister this) cOperatingModeMask =? Shutdown)
            || (Z.land (mConfigRegister this) cOperatingModeMask =? 0)).
  - rewrite to_uint16_of_lor
      by (first [apply to_uint16_of_land; exact Hc | apply to_uint16_small; lia]).
    unfold write_step, bind.
    match goal with
    | |- context [WriteRegister ?c ?r ?v ?w0] =>
        destruct (WriteRegister_run c r v w0) as (t & b' & E)
    end.
    rewrite E. unfold ret. simpl. do 4 eexists. split; reflexivity.
  - unfold write_step, bind.
    match goal with
    | |- context [WriteRegister ?c ?r ?v ?w0] =>
        destruct (WriteRegister_run c r v w0) as (t & b' & E)
    end.
    rewrite E. unfold ret. exists (if t =? 0 then OK else FAIL), (mConfigRegister this), t, b'.
    split; [| reflexivity]. destruct this; reflexivity.
Qed.

(** C8.  Hibernate leaves a snapshot of the configuration register in the
    device; the wake-up that follows transmits one write of the
    configuration register.  When the mode bits (mask 0x0007) of the
    snapshot are the shutdown mode or zero, the mode bits written are the
    continuous shunt-and-bus mode; in every case the mode bits written are
    neither shutdown nor zero, and the bits outside the mode field are those
    of the snapshot.  The enumerators come from the absent header: the
    continuous mode is taken to be a non-zero three-bit value other than
    the shutdown mode. *)
Theorem wake_after_hibernate_never_writes_shutdown
        (this : INA226_config) (w : world bus) :
  mInitialized this = true ->
  0 <= ShuntAndBusVoltageContinuous <= 7 ->
  ShuntAndBusVoltageContinuous <> 0 ->
  ShuntAndBusVoltageContinuous <> Shutdown ->
  exists st1 snapshot w1 st2 v t b2,
    INA226_Hibernate bus Transmit Receive this w
    = Some ((st1, set_mConfigRegister this snapshot), w1)
    /\ INA226_Wakeup bus Transmit Shutdown ShuntAndBusVoltageContinuous
                     (set_mConfigRegister this snapshot) w1
       = Some ((st2, set_mConfigRegister this v),
               mkWorld b2 (trace w1 ++
                           [EvTransmit (hi2c this) (mI2C_Address this)
                                       (write_bytes INA226_CONFIG v) t]))
    /\ (Z.land snapshot cOperatingModeMask = Shutdown
        \/ Z.land snapshot cOperatingModeMask = 0 ->
        Z.land v cOperatingModeMask = ShuntAndBusVoltageContinuous)
    /\ Z.land v cOperatingModeMask <> Shutdown
    /\ Z.land v cOperatingModeMask <> 0
    /\ Z.land v (Z.lnot cOperatingModeMask)
       = Z.land snapshot (Z.lnot cOperatingModeMask).
Proof.
  intros Hi Hs Hs0 Hsd.
  destruct (Hibernate_run this w Hi) as (st1 & snapshot & w1 & EH & Hv).
  destruct (Wakeup_run (set_mConfigRegister this snapshot) w1 Hi Hv Hs)
    as (st2 & v & t & b2 & EW & Ev).
  exists st1, snapshot, w1, st2, v, t, b2.
  split; [exact EH | split; [exact EW |]].
  simpl mConfigRegister in Ev.
  assert (HS : Z.land ShuntAndBusVoltageContinuous cOperatingModeMask
               = ShuntAndBusVoltageContinuous).
  { destruct (three_bit_cases _ Hs) as [E | [E | [E | [E | [E | [E | [E | E]]]]]]];
      rewrite E; reflexivity. }
  destruct (field_update snapshot cOperatingModeMask _ HS) as [F1 F2].
  destruct (Z.land snapshot cOperatingModeMask =? Shutdown) eqn:E1; simpl in Ev.
  - subst v. rewrite F1, F2. repeat split; auto.
  - apply Z.eqb_neq in E1.
    destruct (Z.land snapshot cOperatingModeMask =? 0) eqn:E2.
    + subst v. rewrite F1, F2. repeat split; auto.
    + apply Z.eqb_neq in E2. subst v. repeat split; auto.
      intros [E | E]; contradiction.
Qed.

(** ** Averaging and conversion time *)

Lemma read_run_failed_last (this : INA226_config) (aRegister : Z)
      (st : status) (v : Z) (evs : list event) :
  read_run this aRegister st v evs ->
  status_eqb st OK = false ->
  exists pre e, evs = pre ++ [e] /\ failed e = true.
Proof.
  intros R Hst. destruct R as [t Ht | buffer r Hr | buffer].
  - exists [], (EvTransmit (hi2c this) (mI2C_Address this) [to_uint8 aRegister] t).
    split; [reflexivity |]. simpl. apply Z.eqb_neq in Ht. rewrite Ht. reflexivity.
  - exists [EvTransmit (hi2c this) (mI2C_Address this) [to_uint8 aRegister] 0],
      (EvReceive (hi2c this) (mI2C_Address this) 2 buffer r).
    split; [reflexivity |]. simpl. apply Z.eqb_neq in Hr. rewrite Hr. reflexivity.
  - discriminate Hst.
Qed.

Lemma read_run_succeeded_inv (this : INA226_config) (aRegister : Z)
      (st : status) (v : Z) (evs : list event) :
  read_run this aRegister st v evs ->
  status_eqb st OK = true ->
  exists buffer,
    v = buffer_value buffer
    /\ evs = [EvTransmit (hi2c this) (mI2C_Address this) [to_uint8 aRegister] 0;
              EvReceive (hi2c this) (mI2C_Address this) 2 buffer 0].
Proof.
  intros R Hst. destruct R as [t Ht | buffer r Hr | buffer];
    try discriminate Hst.
  exists buffer. split; reflexivity.
Qed.

(** The shared shape of the two read-modify-write functions: the guard and
    the range check pass, the register is read, [update] computes the new
    content from the value read, and the result is written back. *)
Lemma read_modify_write_run (update : Z -> Z) (mask field : Z)
      (this : INA226_config) (w : world bus) :
  (forall f, 0 <= f < 2 ^ 16 ->
             0 <= update f < 2 ^ 16
             /\ Z.land (update f) (Z.lnot mask) = Z.land f (Z.lnot mask)
             /\ Z.land (update f) mask = field) ->
  exists st this' b evs,
    CALL_FN bus (read_into_mConfigRegister bus Transmit Receive)
            (fun this =>
               let this := set_mConfigRegister this (update (mConfigRegister this)) in
               write_step bus Transmit INA226_CONFIG (mConfigRegister this) this)
            this w
    = Some ((st, this'), mkWorld b (trace w ++ evs))
    /\ rmw_outcome this mask field this' evs.
Proof.
  intros Hu.
  match goal with
  | |- context [CALL_FN _ _ ?k _ _] =>
      destruct (CALL_FN_read_config k this w)
        as (s1 & v1 & evs1 & s2 & v2 & evs2 & b & R1 & R2 & E)
  end.
  rewrite E. clear E.
  destruct (status_eqb s2 OK) eqn:Hs2.
  - destruct (read_run_succeeded_inv _ _ _ _ _ R2 Hs2) as (buffer & Ev & Eevs).
    subst v2 evs2.
    destruct (Hu (buffer_value buffer) (buffer_value_range buffer))
      as (Hr & Hframe & Hfield).
    cbv zeta. unfold write_step, bind. simpl mConfigRegister.
    match goal with
    | |- context [WriteRegister ?c ?r ?v ?w0] =>
        destruct (WriteRegister_run c r v w0) as (t & b' & E)
    end.
    rewrite E. unfold ret. simpl trace. simpl hi2c. simpl mI2C_Address.
    do 4 eexists. split.
    + rewrite <- !app_assoc. reflexivity.
    + right.
      exists (evs1 ++ [EvTransmit (hi2c this) (mI2C_Address this)
                                  [to_uint8 INA226_CONFIG] 0]),
        buffer, (update (buffer_value buffer)), t.
      split; [rewrite <- !app_assoc; reflexivity |].
      split.
      { apply Forall_app. split.
        - exact (read_run_no_write _ _ _ _ _ R1).
        - repeat constructor. }
      split; [reflexivity |].
      split; [exact Hr | split; [exact Hframe | exact Hfield]].
  - unfold ret. do 4 eexists. split; [reflexivity |].
    left. split.
    + apply Forall_app. split.
      * exact (read_run_no_write _ _ _ _ _ R1).
      * exact (read_run_no_write _ _ _ _ _ R2).
    + destruct (read_run_failed_last _ _ _ _ _ R2 Hs2) as (pre & e & Ee & Hf).
      exists (evs1 ++ pre), e. split; [| exact Hf].
      rewrite Ee, app_assoc. reflexivity.
Qed.

Lemma averaging_update (i f : Z) :
  0 <= i <= 7 -> 0 <= f < 2 ^ 16 ->
  let new := to_uint16
               (Z.lor (to_uint16 (Z.land f (Z.lnot cSampleAvgMask)))
                      (to_int32 (Z.shiftl i cSampleAvgIdxShift))) in
  0 <= new < 2 ^ 16
  /\ Z.land new (Z.lnot cSampleAvgMask) = Z.land f (Z.lnot cSampleAvgMask)
  /\ Z.land new cSampleAvgMask = Z.shiftl i cSampleAvgIdxShift.
Proof.
  intros Hi Hf new. subst new.
  assert (HC : to_int32 (Z.shiftl i cSampleAvgIdxShift)
               = Z.shiftl i cSampleAvgIdxShift
               /\ to_uint16 (Z.shiftl i cSampleAvgIdxShift)
                  = Z.shiftl i cSampleAvgIdxShift
               /\ Z.land (Z.shiftl i cSampleAvgIdxShift) cSampleAvgMask
                  = Z.shiftl i cSampleAvgIdxShift).
  { destruct (three_bit_cases _ Hi) as [E | [E | [E | [E | [E | [E | [E | E]]]]]]];
      rewrite E; repeat split; reflexivity. }
  destruct HC as (H32 & H16 & HM).
  rewrite H32, (to_uint16_of_land f _ Hf).
  rewrite to_uint16_of_lor by (first [apply to_uint16_of_land; exact Hf | exact H16]).
  split; [| exact (field_update f cSampleAvgMask _ HM)].
  rewrite <- (to_uint16_of_lor (Z.land f (Z.lnot cSampleAvgMask))
                               (Z.shiftl i cSampleAvgIdxShift))
    by (first [apply to_uint16_of_land; exact Hf | exact H16]).
  apply to_uint16_range.
Qed.

Lemma conversion_time_update (i f : Z) :
  0 <= i <= 7 -> 0 <= f < 2 ^ 16 ->
  let mask := Z.lor cBusVoltageConvTimeMask cShuntVoltageConvTimeMask in
  let new := to_uint16
               (Z.lor (to_uint16 (Z.land f (Z.lnot mask)))
                      (to_uint16
                         (Z.lor (Z.shiftl (to_uint16 i) cBusVoltConvTimeIdxShift)
                                (Z.shiftl (to_uint16 i) cShuntVoltConvTimeIdxShift)))) in
  0 <= new < 2 ^ 16
  /\ Z.land new (Z.lnot mask) = Z.land f (Z.lnot mask)
  /\ Z.land new mask = conversion_time_field i.
Proof.
  intros Hi Hf mask new. subst new.
  assert (HC : to_uint16
                 (Z.lor (Z.shiftl (to_uint16 i) cBusVoltConvTimeIdxShift)
                        (Z.shiftl (to_uint16 i) cShuntVoltConvTimeIdxShift))
               = conversion_time_field i
               /\ to_uint16 (conversion_time_field i) = conversion_time_field i
               /\ Z.land (conversion_time_field i) mask = conversion_time_field i).
  { destruct (three_bit_cases _ Hi) as [E | [E | [E | [E | [E | [E | [E | E]]]]]]];
      rewrite E; repeat split; reflexivity. }
  destruct HC as (HCf & H16 & HM).
  rewrite HCf, (to_uint16_of_land f _ Hf).
  rewrite to_uint16_of_lor by (first [apply to_uint16_of_land; exact Hf | exact H16]).
  split; [| exact (field_update f mask _ HM)].
  rewrite <- (to_uint16_of_lor (Z.land f (Z.lnot mask)) (conversion_time_field i))
    by (first [apply to_uint16_of_land; exact Hf | exact H16]).
  apply to_uint16_range.
Qed.

(** C7.  On an initialised device and for an index from 0 to 7, each of
    [INA226_ConfigureNumSampleAveraging] and
    [INA226_ConfigureVoltageConversionTime] ends in one of two ways.  Either
    the read of the configuration register failed and no write was
    transmitted; or the last two transport calls are the successful receive
    of the register and the transmit of a new value, and the new value
    equals the received one on every bit outside the field: outside 0x0E00
    for the averaging, outside 0x01C0 | 0x0038 for the conversion time.
    Under the mask the new value holds the index, shifted by 9, respectively
    by 6 and by 3 at once. *)
Theorem averaging_and_conversion_time_keep_the_other_bits
        (this : INA226_config) (aIndex : Z) (w : world bus) :
  mInitialized this = true ->
  0 <= aIndex <= 7 ->
  (exists st this' b evs,
      INA226_ConfigureNumSampleAveraging bus Transmit Receive this aIndex w
      = Some ((st, this'), mkWorld b (trace w ++ evs))
      /\ rmw_outcome this cSampleAvgMask (Z.shiftl aIndex cSampleAvgIdxShift)
                     this' evs)
  /\ (exists st this' b evs,
         INA226_ConfigureVoltageConversionTime bus Transmit Receive this aIndex w
         = Some ((st, this'), mkWorld b (trace w ++ evs))
         /\ rmw_outcome this
                        (Z.lor cBusVoltageConvTimeMask cShuntVoltageConvTimeMask)
                        (conversion_time_field aIndex) this' evs).
Proof.
  intros Hinit Hi.
  assert (Hrange : (aIndex <? 0) || (aIndex >? 7) = false).
  { apply orb_false_intro; [apply Z.ltb_ge | rewrite Z.gtb_ltb; apply Z.ltb_ge]; lia. }
  split.
  - unfold INA226_ConfigureNumSampleAveraging, CHECK_INITIALIZED.
    rewrite Hinit. cbn [negb]. unfold cMaxSampleAvgTblIdx. rewrite Hrange.
    apply (read_modify_write_run
             (fun f => to_uint16
                         (Z.lor (to_uint16 (Z.land f (Z.lnot cSampleAvgMask)))
                                (to_int32 (Z.shiftl aIndex cSampleAvgIdxShift))))).
    intros f Hf. exact (averaging_update aIndex f Hi Hf).
  - unfold INA226_ConfigureVoltageConversionTime, CHECK_INITIALIZED.
    rewrite Hinit. cbn [negb]. unfold cMaxConvTimeTblIdx. rewrite Hrange.
    apply (read_modify_write_run
             (fun f =>
                to_uint16
                  (Z.lor (to_uint16
                            (Z.land f (Z.lnot (Z.lor cBusVoltageConvTimeMask
                                                     cShuntVoltageConvTimeMask))))
                         (to_uint16
                            (Z.lor (Z.shiftl (to_uint16 aIndex)
                                             cBusVoltConvTimeIdxShift)
                                   (Z.shiftl (to_uint16 aIndex)
                                             cShuntVoltConvTimeIdxShift)))))).
    intros f Hf. exact (conversion_time_update aIndex f Hi Hf).
Qed.

(** ** Alert pin trigger *)

Lemma read_run_read_events (this : INA226_config) (aRegister : Z)
      (st : status) (v : Z) (evs : list event) :
  read_run this aRegister st v evs -> Forall (read_event this aRegister) evs.
Proof.
  intros R. destruct R; repeat constructor.
Qed.

Lemma read_run_nonempty (this : INA226_config) (aRegister : Z)
      (st : status) (v : Z) (evs : list event) :
  read_run this aRegister st v evs -> evs <> [].
Proof.
  intros R. destruct R; discriminate.
Qed.

Lemma failed_not_receive_ok (e : event) : failed e = true -> receive_ok e = false.
Proof.
  destruct e as [h a n r | h a bs r | h a n bs r]; simpl; try reflexivity.
  destruct (r =? 0); simpl; congruence.
Qed.

(** C6, as the code has it.  On an initialised device, a call of
    [INA226_ConfigureAlertPinTrigger] with a cause that is none of the seven
    enumerators writes no register: the transport calls it makes are calls
    of a read of the mask/enable register, and there is at least one, since
    the register is read before the cause is looked at.  The device struct
    is unchanged, and the status is [BAD_PARAMETER] whenever the last
    transport call is a receive that succeeded. *)
Theorem unrecognised_alert_trigger_writes_no_register
        (this : INA226_config) (aAlertTrigger aValue : Z) (aLatching : bool)
        (w : world bus) :
  mInitialized this = true ->
  aAlertTrigger <> PowerOverLimit ->
  aAlertTrigger <> ClearTriggers ->
  aAlertTrigger <> ConversionReady ->
  aAlertTrigger <> ShuntVoltageOverLimit ->
  aAlertTrigger <> ShuntVoltageUnderLimit ->
  aAlertTrigger <> BusVoltageOverLimit ->
  aAlertTrigger <> BusVoltageUnderLimit ->
  exists st b evs,
    INA226_ConfigureAlertPinTrigger
      bus Transmit Receive PowerOverLimit ClearTriggers ConversionReady
      ShuntVoltageOverLimit ShuntVoltageUnderLimit BusVoltageOverLimit
      BusVoltageUnderLimit this aAlertTrigger aValue aLatching w
    = Some ((st, this), mkWorld b (trace w ++ evs))
    /\ Forall (fun e => is_write e = false) evs
    /\ Forall (read_event this INA226_MASK_ENABLE) evs
    /\ evs <> []
    /\ (receive_ok (last evs (EvCheck 0 0 0 0)) = true -> st = BAD_PARAMETER).
Proof.
  intros Hinit H1 H2 H3 H4 H5 H6 H7.
  unfold INA226_ConfigureAlertPinTrigger, CHECK_INITIALIZED.
  rewrite Hinit. cbn [negb]. unfold bind at 1.
  match goal with
  | |- context [CALL_FN _ _ ?k _ _] =>
      destruct (CALL_FN_read_local INA226_MASK_ENABLE k this 0 w)
        as (s1 & v1 & evs1 & s2 & v2 & evs2 & b & R1 & R2 & E)
  end.
  rewrite E. clear E.
  assert (Hw : Forall (fun e => is_write e = false) (evs1 ++ evs2)).
  { apply Forall_app. split; eapply read_run_no_write; eassumption. }
  assert (Hr : Forall (read_event this INA226_MASK_ENABLE) (evs1 ++ evs2)).
  { apply Forall_app. split; eapply read_run_read_events; eassumption. }
  assert (Hn : evs1 ++ evs2 <> []).
  { intros Happ. apply app_eq_nil in Happ.
    exact (read_run_nonempty _ _ _ _ _ R1 (proj1 Happ)). }
  destruct (status_eqb s2 OK) eqn:Hs2.
  - cbv zeta. simpl fst.
    unfold alert_value.
    apply Z.eqb_neq in H1, H2, H3, H4, H5, H6, H7.
    rewrite H1, H2, H3, H4, H5, H6, H7. simpl orb. cbv iota.
    unfold ret. exists BAD_PARAMETER, b, (evs1 ++ evs2).
    repeat (split; [first [reflexivity | assumption] |]).
    reflexivity.
  - unfold ret. exists s1, b, (evs1 ++ evs2).
    repeat (split; [first [reflexivity | assumption] |]).
    destruct (read_run_failed_last _ _ _ _ _ R2 Hs2) as (pre & e & Ee & Hf).
    rewrite Ee, app_assoc, last_last, (failed_not_receive_ok e Hf).
    discriminate.
Qed.

(** ** Calibration *)

(** C4, as the code has it.  Let [x] be the double
    [aMaxCurrent_Amps * 1000000.0 / 32767.0].  Whenever [x] is finite and 25
    times its ceiling fits an [int32_t], the value [INA226_setupCalibration]
    assigns to [mCurrentMicroAmpsPerBit] is the ceiling of [x] and the value
    it assigns to [mPowerMicroWattPerBit] is 25 times that, for every shunt
    resistance: the two assignments do not read the calibration value.  The
    ceiling is that of the rational number the double stands for.  The whole
    call is then defined exactly when the conversion of the calibration
    quotient is, and stores these two scale factors in the device. *)
Theorem setupCalibration_stores_the_scale_factors
        (this : INA226_config) (aShuntResistor_Ohms aMaxCurrent_Amps : double)
        (w : world bus) (q : Q) :
  double_value (ddiv (dmul aMaxCurrent_Amps lit_1000000_0) lit_32767_0) = Some q ->
  INT32_MIN <= 25 * Qceiling q <= INT32_MAX ->
  fst (fst (setupCalibration_assignments aShuntResistor_Ohms aMaxCurrent_Amps))
  = Some (Qceiling q)
  /\ snd (setupCalibration_assignments aShuntResistor_Ohms aMaxCurrent_Amps)
     = Some (25 * Qceiling q)
  /\ match snd (fst (setupCalibration_assignments aShuntResistor_Ohms
                                                  aMaxCurrent_Amps)) with
     | Some cal =>
         exists st t b,
           INA226_setupCalibration bus Transmit this aShuntResistor_Ohms
                                   aMaxCurrent_Amps w
           = Some ((st, set_calibration this (Qceiling q) cal (25 * Qceiling q)),
                   mkWorld b (trace w ++
                              [EvTransmit (hi2c this) (mI2C_Address this)
                                          (write_bytes INA226_CALIBRATION cal) t]))
     | None =>
         INA226_setupCalibration bus Transmit this aShuntResistor_Ohms
                                 aMaxCurrent_Amps w = None
     end.
Proof.
  intros Hq Hrange.
  unfold INT32_MIN, INT32_MAX in Hrange.
  assert (Hcur : double_to_int32
                   (ceil (ddiv (dmul aMaxCurrent_Amps lit_1000000_0) lit_32767_0))
                 = Some (Qceiling q)).
  { unfold double_to_int32.
    apply (double_to_integer_ceil INT32_MIN INT32_MAX _ q Hq);
      unfold INT32_MIN, INT32_MAX; lia. }
  assert (Hpow : to_int32 (Qceiling q * INA226_POWER_LSB_FACTOR) = 25 * Qceiling q).
  { unfold INA226_POWER_LSB_FACTOR.
    rewrite to_int32_small by (unfold INT32_MIN, INT32_MAX; lia). lia. }
  unfold setupCalibration_assignments. cbn [fst snd].
  split; [exact Hcur |].
  split; [rewrite Hcur; cbn [option_map]; rewrite Hpow; reflexivity |].
  unfold INA226_setupCalibration. rewrite Hcur.
  destruct (double_to_uint16 _) as [cal |]; [| reflexivity].
  rewrite Hpow. unfold bind.
  match goal with
  | |- context [WriteRegister ?c ?r ?v ?w0] =>
      destruct (WriteRegister_run c r v w0) as (t & b' & E)
  end.
  rewrite E. unfold ret. simpl.
  exists (if t =? 0 then OK else FAIL), t, b'. reflexivity.
Qed.

(** ** Measure all *)

Lemma getters_return (dev : INA226) (w : world bus) :
  (exists v w', INA226_GetShuntVoltage_uV bus Transmit Receive dev w = Some (v, w'))
  /\ (exists v w', INA226_GetBusVoltage_uV bus Transmit Receive dev w = Some (v, w'))
  /\ (exists v w', INA226_GetCurrent_uA bus Transmit Receive dev w = Some (v, w'))
  /\ (exists v w', INA226_GetPower_uW bus Transmit Receive dev w = Some (v, w')).
Proof.
  unfold INA226_GetShuntVoltage_uV, INA226_GetBusVoltage_uV,
    INA226_GetCurrent_uA, INA226_GetPower_uW, bind, ret.
  repeat split;
    match goal with
    | |- context [ReadRegister ?c ?r ?w0] =>
        destruct (ReadRegister_run c r w0) as (st & v & b & evs & E & _);
        rewrite E; do 2 eexists; reflexivity
    end.
Qed.

(** C1, what the code does.  The integer [INA226_MeasureAll] returns as
    its status is the bitwise OR of the four converted readings; the
    statuses of the register reads do not enter it.  On a bus where every
    transport call fails, all four reads fail, every reading is 0 and the
    status returned is that of [OK].  On a working bus whose shunt-voltage
    register holds the count 1, all four reads succeed and the status
    returned is 2, which is not that of [OK]. *)
Theorem MeasureAll_status_is_the_OR_of_the_readings :
  (forall (dev : INA226) (w : world bus),
      exists sv bv cu pw w',
        INA226_MeasureAll bus Transmit Receive dev w
        = Some ((Z.lor (Z.lor (Z.lor (Z.lor 0 sv) bv) cu) pw,
                 mkINA226 (Config dev) (mkResult sv bv cu pw)), w'))
  /\ INA226_MeasureAll sim sim_Transmit sim_Receive fresh_device dead
     = Some ((OK_value, fresh_device),
             mkWorld (mkSim [] 0 [] true)
                     [EvTransmit 1 0x40 [INA226_SHUNT_VOLTAGE] 1;
                      EvTransmit 1 0x40 [INA226_BUS_VOLTAGE] 1;
                      EvTransmit 1 0x40 [INA226_CURRENT] 1;
                      EvTransmit 1 0x40 [INA226_POWER] 1])
  /\ INA226_MeasureAll sim sim_Transmit sim_Receive fresh_device
                       (healthy [(INA226_SHUNT_VOLTAGE, 1)])
     = Some ((2, mkINA226 fresh_config (mkResult 2 0 0 0)),
             mkWorld (mkSim [(INA226_SHUNT_VOLTAGE, 1)] INA226_POWER [] false)
                     [EvTransmit 1 0x40 [INA226_SHUNT_VOLTAGE] 0;
                      EvReceive 1 0x40 2 [0; 1] 0;
                      EvTransmit 1 0x40 [INA226_BUS_VOLTAGE] 0;
                      EvReceive 1 0x40 2 [0; 0] 0;
                      EvTransmit 1 0x40 [INA226_CURRENT] 0;
                      EvReceive 1 0x40 2 [0; 0] 0;
                      EvTransmit 1 0x40 [INA226_POWER] 0;
                      EvReceive 1 0x40 2 [0; 0] 0])
  /\ 2 <> OK_value.
Proof.
  split; [| split; [reflexivity | split; [reflexivity | discriminate]]].
  intros dev w. unfold INA226_MeasureAll, bind.
  destruct (getters_return dev w) as ((sv & w1 & E1) & _).
  rewrite E1.
  destruct (getters_return dev w1) as (_ & (bv & w2 & E2) & _).
  rewrite E2.
  destruct (getters_return dev w2) as (_ & _ & (cu & w3 & E3) & _).
  rewrite E3.
  destruct (getters_return dev w3) as (_ & _ & _ & (pw & w4 & E4)).
  rewrite E4.
  unfold ret. exists sv, bv, cu, pw, w4. reflexivity.
Qed.

(** ** Register access, further *)

Lemma to_uint8_idem (z : Z) : to_uint8 (to_uint8 z) = to_uint8 z.
Proof. unfold to_uint8. apply Z.mod_mod. lia. Qed.

Lemma to_uint16_idem (z : Z) : to_uint16 (to_uint16 z) = to_uint16 z.
Proof. unfold to_uint16. apply Z.mod_mod. lia. Qed.

(** X1.  The two data bytes that [INA226_WriteRegister] transmits for a
    value, handed to the assembly [INA226_ReadRegister] applies to a
    receive buffer, give the value back (as a [uint16_t]): both functions
    agree on the byte order, high byte first. *)
Theorem register_write_read_round_trip
        (this : INA226_config) (aRegister aValue : Z) (w : world bus) :
  exists t b hi lo,
    WriteRegister this aRegister aValue w
    = Some (if t =? 0 then OK else FAIL,
            mkWorld b (trace w ++
                       [EvTransmit (hi2c this) (mI2C_Address this)
                                   [to_uint8 aRegister; hi; lo] t]))
    /\ buffer_value [hi; lo] = to_uint16 aValue.
Proof.
  destruct (WriteRegister_run this aRegister aValue w) as (t & b & E).
  exists t, b, (to_uint8 (Z.land (Z.shiftr (to_uint16 aValue) 8) 0xFF)),
    (to_uint8 (Z.land (to_uint16 aValue) 0xFF)).
  split; [exact E |].
  assert (Hw : Z.lor (Z.shiftl (to_uint8 (Z.land (Z.shiftr (to_uint16 aValue) 8) 0xFF)) 8)
                     (to_uint8 (Z.land (to_uint16 aValue) 0xFF))
               = to_uint16 aValue).
  { generalize (written_write_bytes 0 0 aRegister aValue 0).
    unfold written, write_bytes. congruence. }
  unfold buffer_value, byte_at. simpl nth.
  rewrite !to_uint8_idem, Hw. apply to_uint16_idem.
Qed.

(** X2.  [INA226_ReadRegister] ends in one of three ways, on every bus:
    the address transmit fails, and then nothing is received; the receive
    fails; or both succeed.  In the first two cases the status is [FAIL]
    and the value left in [*aValue_p] is 0; in the third the status is [OK]
    and the value is the received buffer, high byte first, below 2^16. *)
Theorem ReadRegister_outcomes
        (this : INA226_config) (aRegister : Z) (w : world bus) :
  exists st v b evs,
    ReadRegister this aRegister w = Some ((st, v), mkWorld b (trace w ++ evs))
    /\ 0 <= v < 2 ^ 16
    /\ ((exists t,
            t <> 0 /\ st = FAIL /\ v = 0
            /\ evs = [EvTransmit (hi2c this) (mI2C_Address this)
                                 [to_uint8 aRegister] t])
        \/ (exists buffer r,
               r <> 0 /\ st = FAIL /\ v = 0
               /\ evs = [EvTransmit (hi2c this) (mI2C_Address this)
                                    [to_uint8 aRegister] 0;
                         EvReceive (hi2c this) (mI2C_Address this) 2 buffer r])
        \/ (exists buffer,
               st = OK
               /\ v = Z.lor (Z.shiftl (byte_at buffer 0) 8) (byte_at buffer 1)
               /\ evs = [EvTransmit (hi2c this) (mI2C_Address this)
                                    [to_uint8 aRegister] 0;
                         EvReceive (hi2c this) (mI2C_Address this) 2 buffer 0])).
Proof.
  destruct (ReadRegister_run this aRegister w) as (st & v & b & evs & E & R).
  exists st, v, b, evs. split; [exact E |].
  split; [exact (read_run_value_range _ _ _ _ _ R) |].
  destruct R as [t Ht | buffer r Hr | buffer].
  - left. exists t. repeat split; auto.
  - right. left. exists buffer, r. repeat split; auto.
  - right. right. exists buffer. repeat split.
    unfold buffer_value. apply to_uint16_of_lor.
    + pose proof (to_uint8_range (nth 0 buffer 0)) as H0.
      unfold byte_at. rewrite Z.shiftl_mul_pow2 by lia.
      apply to_uint16_small. lia.
    + pose proof (to_uint8_range (nth 1 buffer 0)) as H1.
      unfold byte_at. apply to_uint16_small. lia.
Qed.

(** ** Bus voltage, current and power *)

(** X7.  [INA226_GetBusVoltage_uV] returns 1250 times the unsigned content
    of the bus-voltage register (0 after a failed read): a value from 0 to
    81 918 750 that never wraps and is never negative. *)
Theorem bus_voltage_is_1250_per_count (this : INA226) (w : world bus) :
  exists st v w',
    ReadRegister (Config this) INA226_BUS_VOLTAGE w = Some ((st, v), w')
    /\ INA226_GetBusVoltage_uV bus Transmit Receive this w
       = Some (v * 1250, w')
    /\ 0 <= v * 1250 <= 81918750.
Proof.
  destruct (ReadRegister_run (Config this) INA226_BUS_VOLTAGE w)
    as (st & v & b & evs & E & R).
  pose proof (read_run_value_range _ _ _ _ _ R) as Hv.
  exists st, v, (mkWorld b (trace w ++ evs)).
  split; [exact E |]. split; [| lia].
  unfold INA226_GetBusVoltage_uV, bind, ret. rewrite E.
  unfold INA226_BUS_VOLTAGE_LSB.
  rewrite to_int32_small by (unfold INT32_MIN, INT32_MAX; lia).
  reflexivity.
Qed.

(** X8.  With a current scale from 0 to 65535, [INA226_GetCurrent_uA]
    returns the signed register count times the scale, without wrapping;
    with a power scale from 0 to 32767, [INA226_GetPower_uW] returns the
    unsigned register count times the scale, without wrapping and never
    negative. *)
Theorem current_and_power_are_count_times_scale (this : INA226) (w : world bus) :
  0 <= mCurrentMicroAmpsPerBit (Config this) <= 65535 ->
  0 <= mPowerMicroWattPerBit (Config this) <= 32767 ->
  (exists st v w',
      ReadRegister (Config this) INA226_CURRENT w = Some ((st, v), w')
      /\ INA226_GetCurrent_uA bus Transmit Receive this w
         = Some (to_int16 v * mCurrentMicroAmpsPerBit (Config this), w'))
  /\ (exists st v w',
         ReadRegister (Config this) INA226_POWER w = Some ((st, v), w')
         /\ INA226_GetPower_uW bus Transmit Receive this w
            = Some (v * mPowerMicroWattPerBit (Config this), w')
         /\ 0 <= v * mPowerMicroWattPerBit (Config this)).
Proof.
  intros Hc Hp. split.
  - destruct (ReadRegister_run (Config this) INA226_CURRENT w)
      as (st & v & b & evs & E & R).
    exists st, v, (mkWorld b (trace w ++ evs)).
    split; [exact E |].
    unfold INA226_GetCurrent_uA, bind, ret. rewrite E.
    pose proof (to_int16_range v) as Hr.
    rewrite to_int32_small by (unfold INT32_MIN, INT32_MAX; nia).
    reflexivity.
  - destruct (ReadRegister_run (Config this) INA226_POWER w)
      as (st & v & b & evs & E & R).
    pose proof (read_run_value_range _ _ _ _ _ R) as Hv.
    exists st, v, (mkWorld b (trace w ++ evs)).
    split; [exact E |]. split; [| nia].
    unfold INA226_GetPower_uW, bind, ret. rewrite E.
    rewrite to_int32_small by (unfold INT32_MIN, INT32_MAX; nia).
    reflexivity.
Qed.

(** ** Index checks and operating mode *)

(** X3.  On an initialised device, an averaging or conversion-time index
    below 0 or above 7 is refused with [BAD_PARAMETER] before any transport
    call: the bus, its log and the device are as they were. *)
Theorem out_of_range_index_is_refused_without_io
        (this : INA226_config) (aIndex : Z) (w : world bus) :
  mInitialized this = true ->
  aIndex < 0 \/ 7 < aIndex ->
  INA226_ConfigureNumSampleAveraging bus Transmit Receive this aIndex w
  = Some ((BAD_PARAMETER, this), w)
  /\ INA226_ConfigureVoltageConversionTime bus Transmit Receive this aIndex w
     = Some ((BAD_PARAMETER, this), w).
Proof.
  intros Hinit Hi.
  assert (Hrange : (aIndex <? 0) || (aIndex >? 7) = true).
  { apply orb_true_iff. destruct Hi as [Hi | Hi].
    - left. apply Z.ltb_lt. exact Hi.
    - right. rewrite Z.gtb_ltb. apply Z.ltb_lt. exact Hi. }
  unfold INA226_ConfigureNumSampleAveraging, INA226_ConfigureVoltageConversionTime,
    CHECK_INITIALIZED, cMaxSampleAvgTblIdx, cMaxConvTimeTblIdx.
  rewrite Hinit, Hrange. split; reflexivity.
Qed.

Lemma operating_mode_update (m f : Z) :
  0 <= m <= 7 -> 0 <= f < 2 ^ 16 ->
  let new := to_uint16
               (Z.lor (to_uint16 (Z.land f (Z.lnot cOperatingModeMask)))
                      (to_uint16 m)) in
  0 <= new < 2 ^ 16
  /\ Z.land new (Z.lnot cOperatingModeMask) = Z.land f (Z.lnot cOperatingModeMask)
  /\ Z.land new cOperatingModeMask = m.
Proof.
  intros Hm Hf new. subst new.
  assert (HC : to_uint16 m = m /\ Z.land m cOperatingModeMask = m).
  { destruct (three_bit_cases _ Hm) as [E | [E | [E | [E | [E | [E | [E | E]]]]]]];
      rewrite E; split; reflexivity. }
  destruct HC as (H16 & HM).
  rewrite H16, (to_uint16_of_land f _ Hf).
  rewrite to_uint16_of_lor by (first [apply to_uint16_of_land; exact Hf | exact H16]).
  split; [| exact (field_update f cOperatingModeMask _ HM)].
  rewrite <- (to_uint16_of_lor (Z.land f (Z.lnot cOperatingModeMask)) m)
    by (first [apply to_uint16_of_land; exact Hf | exact H16]).
  apply to_uint16_range.
Qed.

(** X4.  On an initialised device and for a mode from 0 to 7,
    [INA226_SetOperatingMode] either fails to read the configuration
    register and writes nothing, or writes back the value it received with
    the bits 0x0007 replaced by the mode and every other bit unchanged; the
    device then caches the value written. *)
Theorem SetOperatingMode_touches_only_the_mode_bits
        (this : INA226_config) (aOpMode : Z) (w : world bus) :
  mInitialized this = true ->
  0 <= aOpMode <= 7 ->
  exists st this' b evs,
    INA226_SetOperatingMode bus Transmit Receive this aOpMode w
    = Some ((st, this'), mkWorld b (trace w ++ evs))
    /\ rmw_outcome this cOperatingModeMask aOpMode this' evs.
Proof.
  intros Hinit Hm.
  unfold INA226_SetOperatingMode, CHECK_INITIALIZED.
  rewrite Hinit. cbn [negb].
  apply (read_modify_write_run
           (fun f => to_uint16
                       (Z.lor (to_uint16 (Z.land f (Z.lnot cOperatingModeMask)))
                              (to_uint16 aOpMode)))).
  intros f Hf. exact (operating_mode_update aOpMode f Hm Hf).
Qed.

(** ** Hibernate and wake-up, further *)

(** X5.  On an initialised device [INA226_Hibernate] ends in one of two
    ways.  Either the read of the configuration register failed: nothing is
    written and the configuration cached in the device is 0.  Or the last
    two transport calls are the successful receive of the register and the
    transmit of the received value with the bits 0x0007 cleared; the device
    caches the value as received, mode bits included. *)
Theorem Hibernate_clears_the_mode_bits_and_keeps_the_snapshot
        (this : INA226_config) (w : world bus) :
  mInitialized this = true ->
  exists st this' b evs,
    INA226_Hibernate bus Transmit Receive this w
    = Some ((st, this'), mkWorld b (trace w ++ evs))
    /\ ((Forall (fun e => is_write e = false) evs
         /\ failed (last evs (EvCheck 0 0 0 0)) = true
         /\ this' = set_mConfigRegister this 0)
        \/ (exists pre buffer t,
               evs = pre ++ [EvReceive (hi2c this) (mI2C_Address this) 2 buffer 0;
                             EvTransmit (hi2c this) (mI2C_Address this)
                                        (write_bytes INA226_CONFIG
                                           (Z.land (buffer_value buffer)
                                                   (Z.lnot cOperatingModeMask))) t]
               /\ Forall (fun e => is_write e = false) pre
               /\ this' = set_mConfigRegister this (buffer_value buffer)
               /\ st = (if t =? 0 then OK else FAIL))).
Proof.
  intros Hi. unfold INA226_Hibernate, CHECK_INITIALIZED. rewrite Hi. cbn [negb].
  match goal with
  | |- context [CALL_FN _ _ ?k _ _] =>
      destruct (CALL_FN_read_config k this w)
        as (s1 & v1 & evs1 & s2 & v2 & evs2 & b & R1 & R2 & E)
  end.
  rewrite E. clear E.
  destruct (status_eqb s2 OK) eqn:Hs2.
  - destruct (read_run_succeeded_inv _ _ _ _ _ R2 Hs2) as (buffer & Ev & Eevs).
    subst v2 evs2.
    rewrite (to_uint16_of_land _ _ (buffer_value_range buffer)).
    unfold write_step, bind. simpl mConfigRegister.
    match goal with
    | |- context [WriteRegister ?c ?r ?v ?w0] =>
        destruct (WriteRegister_run c r v w0) as (t & b' & E)
    end.
    rewrite E. unfold ret. simpl trace. simpl hi2c. simpl mI2C_Address.
    do 4 eexists. split; [rewrite <- !app_assoc; reflexivity |].
    right.
    exists (evs1 ++ [EvTransmit (hi2c this) (mI2C_Address this)
                                [to_uint8 INA226_CONFIG] 0]), buffer, t.
    split; [rewrite <- !app_assoc; reflexivity |].
    split; [| split; reflexivity].
    apply Forall_app. split.
    + exact (read_run_no_write _ _ _ _ _ R1).
    + repeat constructor.
  - unfold ret. do 4 eexists. split; [reflexivity |].
    left. split; [| split].
    + apply Forall_app. split; eapply read_run_no_write; eassumption.
    + destruct (read_run_failed_last _ _ _ _ _ R2 Hs2) as (pre & e & Ee & Hf).
      rewrite Ee, app_assoc, last_last. exact Hf.
    + destruct R2; try reflexivity. discriminate Hs2.
Qed.

(** X6.  A hibernate followed by a wake-up, on an initialised device: when
    the mode bits of the snapshot hibernate took are neither the shutdown
    mode nor zero, the wake-up writes the snapshot back exactly as it is;
    when the snapshot is 0 (as a failed read leaves it), the wake-up writes
    the bare continuous mode, every other configuration bit being zero. *)
Theorem Wakeup_restores_the_snapshot (this : INA226_config) (w : world bus) :
  mInitialized this = true ->
  0 <= ShuntAndBusVoltageContinuous <= 7 ->
  exists st1 snapshot w1 st2 v t b2,
    INA226_Hibernate bus Transmit Receive this w
    = Some ((st1, set_mConfigRegister this snapshot), w1)
    /\ INA226_Wakeup bus Transmit Shutdown ShuntAndBusVoltageContinuous
                     (set_mConfigRegister this snapshot) w1
       = Some ((st2, set_mConfigRegister this v),
               mkWorld b2 (trace w1 ++
                           [EvTransmit (hi2c this) (mI2C_Address this)
                                       (write_bytes INA226_CONFIG v) t]))
    /\ (Z.land snapshot cOperatingModeMask = Shutdown
        \/ Z.land snapshot cOperatingModeMask = 0
        \/ v = snapshot)
    /\ (snapshot <> 0 \/ v = ShuntAndBusVoltageContinuous).
Proof.
  intros Hi Hs.
  destruct (Hibernate_run this w Hi) as (st1 & snapshot & w1 & EH & Hv).
  destruct (Wakeup_run (set_mConfigRegister this snapshot) w1 Hi Hv Hs)
    as (st2 & v & t & b2 & EW & Ev).
  exists st1, snapshot, w1, st2, v, t, b2.
  split; [exact EH | split; [exact EW |]].
  simpl mConfigRegister in Ev.
  split.
  - destruct (Z.land snapshot cOperatingModeMask =? Shutdown) eqn:E1.
    + left. apply Z.eqb_eq. exact E1.
    + destruct (Z.land snapshot cOperatingModeMask =? 0) eqn:E2.
      * right. left. apply Z.eqb_eq. exact E2.
      * right. right. exact Ev.
  - destruct (Z.eq_dec snapshot 0) as [E0 | Hn]; [right | left; exact Hn].
    subst snapshot. rewrite Ev.
    change (Z.land 0 cOperatingModeMask) with 0.
    change (Z.land 0 (Z.lnot cOperatingModeMask)) with 0.
    rewrite Z.eqb_refl, orb_true_r. reflexivity.
Qed.

(** ** Measure all, further *)

Lemma getters_read_run (dev : INA226) (w : world bus) :
  (exists x st v b evs,
      INA226_GetShuntVoltage_uV bus Transmit Receive dev w
      = Some (x, mkWorld b (trace w ++ evs))
      /\ read_run (Config dev) INA226_SHUNT_VOLTAGE st v evs)
  /\ (exists x st v b evs,
         INA226_GetBusVoltage_uV bus Transmit Receive dev w
         = Some (x, mkWorld b (trace w ++ evs))
         /\ read_run (Config dev) INA226_BUS_VOLTAGE st v evs)
  /\ (exists x st v b evs,
         INA226_GetCurrent_uA bus Transmit Receive dev w
         = Some (x, mkWorld b (trace w ++ evs))
         /\ read_run (Config dev) INA226_CURRENT st v evs)
  /\ (exists x st v b evs,
         INA226_GetPower_uW bus Transmit Receive dev w
         = Some (x, mkWorld b (trace w ++ evs))
         /\ read_run (Config dev) INA226_POWER st v evs).
Proof.
  unfold INA226_GetShuntVoltage_uV, INA226_GetBusVoltage_uV,
    INA226_GetCurrent_uA, INA226_GetPower_uW, bind, ret.
  repeat split;
    match goal with
    | |- context [ReadRegister ?c ?r ?w0] =>
        destruct (ReadRegister_run c r w0) as (st & v & b & evs & E & R);
        rewrite E; do 5 eexists; (split; [reflexivity | exact R])
    end.
Qed.

Lemma shunt_conversion_does_not_wrap (v : Z) :
  to_int32 (to_int32 (Z.shiftr (to_int16 v) 1) + to_int32 (Z.shiftl (to_int16 v) 1))
  = Z.shiftr (to_int16 v) 1 + Z.shiftl (to_int16 v) 1.
Proof.
  pose proof (to_int16_range v) as R.
  rewrite Z.shiftr_div_pow2, Z.shiftl_mul_pow2 by lia.
  change (2 ^ 1) with 2.
  assert (D : - 2 ^ 14 <= to_int16 v / 2 < 2 ^ 14).
  { split.
    - apply Z.div_le_lower_bound; lia.
    - apply Z.div_lt_upper_bound; lia. }
  rewrite (to_int32_small (to_int16 v / 2))
    by (unfold INT32_MIN, INT32_MAX; lia).
  rewrite (to_int32_small (to_int16 v * 2))
    by (unfold INT32_MIN, INT32_MAX; lia).
  apply to_int32_small. unfold INT32_MIN, INT32_MAX. lia.
Qed.

Lemma getters_value_run (dev : INA226) (w : world bus) :
  (exists st v b evs,
      INA226_GetShuntVoltage_uV bus Transmit Receive dev w
      = Some (Z.shiftr (to_int16 v) 1 + Z.shiftl (to_int16 v) 1,
              mkWorld b (trace w ++ evs))
      /\ read_run (Config dev) INA226_SHUNT_VOLTAGE st v evs)
  /\ (exists st v b evs,
         INA226_GetBusVoltage_uV bus Transmit Receive dev w
         = Some (v * 1250, mkWorld b (trace w ++ evs))
         /\ read_run (Config dev) INA226_BUS_VOLTAGE st v evs)
  /\ (exists st v b evs,
         INA226_GetCurrent_uA bus Transmit Receive dev w
         = Some (to_int32 (to_int16 v * mCurrentMicroAmpsPerBit (Config dev)),
                 mkWorld b (trace w ++ evs))
         /\ read_run (Config dev) INA226_CURRENT st v evs)
  /\ (exists st v b evs,
         INA226_GetPower_uW bus Transmit Receive dev w
         = Some (to_int32 (v * mPowerMicroWattPerBit (Config dev)),
                 mkWorld b (trace w ++ evs))
         /\ read_run (Config dev) INA226_POWER st v evs).
Proof.
  unfold INA226_GetShuntVoltage_uV, INA226_GetBusVoltage_uV,
    INA226_GetCurrent_uA, INA226_GetPower_uW, bind, ret.
  repeat split;
    match goal with
    | |- context [ReadRegister ?c ?r ?w0] =>
        destruct (ReadRegister_run c r w0) as (st & v & b & evs & E & R);
        rewrite E; exists st, v, b, evs; (split; [| exact R])
    end.
  - rewrite shunt_conversion_does_not_wrap. reflexivity.
  - pose proof (read_run_value_range _ _ _ _ _ R) as Hv.
    unfold INA226_BUS_VOLTAGE_LSB.
    rewrite to_int32_small by (unfold INT32_MIN, INT32_MAX; lia).
    reflexivity.
  - reflexivity.
  - reflexivity.
Qed.

(** X9.  [INA226_MeasureAll] performs exactly four register reads, of the
    shunt-voltage, bus-voltage, current and power registers in this order
    (0x01, 0x02, 0x04, 0x03), each attempted whether or not the earlier
    ones failed; it writes no register and leaves the configuration part of
    the device as it was.  With [v1] to [v4] the values the four reads
    yield (0 for a read that failed), the result part of the device holds
    the shunt voltage [(raw >> 1) + (raw << 1)] of the signed [v1], the bus
    voltage [v2 * 1250], the current of the signed [v3] times the current
    scale and the power [v4] times the power scale (both as [int32_t]), and
    the integer returned is the bitwise OR of these four readings. *)
Theorem MeasureAll_reads_four_registers_in_order (dev : INA226) (w : world bus) :
  exists b s1 v1 evs1 s2 v2 evs2 s3 v3 evs3 s4 v4 evs4,
    let sv := Z.shiftr (to_int16 v1) 1 + Z.shiftl (to_int16 v1) 1 in
    let bv := v2 * 1250 in
    let cu := to_int32 (to_int16 v3 * mCurrentMicroAmpsPerBit (Config dev)) in
    let pw := to_int32 (v4 * mPowerMicroWattPerBit (Config dev)) in
    INA226_MeasureAll bus Transmit Receive dev w
    = Some ((Z.lor (Z.lor (Z.lor sv bv) cu) pw,
             mkINA226 (Config dev) (mkResult sv bv cu pw)),
            mkWorld b (trace w ++ evs1 ++ evs2 ++ evs3 ++ evs4))
    /\ read_run (Config dev) INA226_SHUNT_VOLTAGE s1 v1 evs1
    /\ read_run (Config dev) INA226_BUS_VOLTAGE s2 v2 evs2
    /\ read_run (Config dev) INA226_CURRENT s3 v3 evs3
    /\ read_run (Config dev) INA226_POWER s4 v4 evs4
    /\ Forall (fun e => is_write e = false) (evs1 ++ evs2 ++ evs3 ++ evs4).
Proof.
  unfold INA226_MeasureAll, bind.
  destruct (getters_value_run dev w)
    as ((s1 & v1 & b1 & evs1 & E1 & R1) & _).
  rewrite E1.
  destruct (getters_value_run dev (mkWorld b1 (trace w ++ evs1)))
    as (_ & (s2 & v2 & b2 & evs2 & E2 & R2) & _).
  rewrite E2. simpl trace.
  destruct (getters_value_run dev (mkWorld b2 ((trace w ++ evs1) ++ evs2)))
    as (_ & _ & (s3 & v3 & b3 & evs3 & E3 & R3) & _).
  rewrite E3. simpl trace.
  destruct (getters_value_run dev
              (mkWorld b3 (((trace w ++ evs1) ++ evs2) ++ evs3)))
    as (_ & _ & _ & (s4 & v4 & b4 & evs4 & E4 & R4)).
  rewrite E4. simpl trace. unfold ret.
  exists b4, s1, v1, evs1, s2, v2, evs2, s3, v3, evs3, s4, v4, evs4.
  cbv zeta.
  split; [rewrite <- !app_assoc, Z.lor_0_l; reflexivity |].
  repeat (split; [assumption |]).
  repeat (apply Forall_app; split);
    eapply read_run_no_write; eassumption.
Qed.

(** ** Alert pin reset *)

Lemma last_app_two (l : list event) (a b d : event) : last (l ++ [a; b]) d = b.
Proof.
  replace (l ++ [a; b]) with ((l ++ [a]) ++ [b])
    by (rewrite <- app_assoc; reflexivity).
  apply last_last.
Qed.

(** X15.  On an initialised device [INA226_ResetAlertPin] only reads the
    mask/enable register and writes nothing.  The cause it hands back is
    either [Unknown], or, with the status [OK], the received register
    content masked with 0x001E, a value from 0 to 30. *)
Theorem ResetAlertPin_returns_a_masked_cause (this : INA226_config) (w : world bus) :
  mInitialized this = true ->
  exists st cause b evs,
    INA226_ResetAlertPin bus Transmit Receive Unknown this w
    = Some ((st, (this, cause)), mkWorld b (trace w ++ evs))
    /\ Forall (fun e => is_write e = false) evs
    /\ Forall (read_event this INA226_MASK_ENABLE) evs
    /\ (cause = Unknown
        \/ (st = OK /\ 0 <= cause <= 30
            /\ exists buffer,
                receive_ok (last evs (EvCheck 0 0 0 0)) = true
                /\ last evs (EvCheck 0 0 0 0)
                   = EvReceive (hi2c this) (mI2C_Address this) 2 buffer 0
                /\ cause = Z.land (buffer_value buffer) cAlertCauseMask)).
Proof.
  intros Hi. unfold INA226_ResetAlertPin. rewrite Hi. cbn [negb].
  unfold bind at 1. unfold CALL_FN. unfold bind. simpl fst.
  destruct (ReadRegister_run this INA226_MASK_ENABLE w)
    as (s1 & v1 & b1 & evs1 & E1 & R1).
  rewrite E1. unfold ret at 1. simpl fst.
  destruct (ReadRegister_run this INA226_MASK_ENABLE (mkWorld b1 (trace w ++ evs1)))
    as (s2 & v2 & b2 & evs2 & E2 & R2).
  rewrite E2. unfold ret at 1. simpl trace. rewrite <- app_assoc.
  assert (Hw : Forall (fun e => is_write e = false) (evs1 ++ evs2)).
  { apply Forall_app. split; eapply read_run_no_write; eassumption. }
  assert (Hr : Forall (read_event this INA226_MASK_ENABLE) (evs1 ++ evs2)).
  { apply Forall_app. split; eapply read_run_read_events; eassumption. }
  destruct (status_eqb s2 OK) eqn:Hs2.
  - destruct (read_run_succeeded_inv _ _ _ _ _ R2 Hs2) as (buffer & Ev & Eevs).
    subst v2. unfold ret. simpl snd. simpl fst.
    rewrite (to_uint16_of_land _ _ (buffer_value_range buffer)).
    do 4 eexists. split; [reflexivity |].
    split; [exact Hw | split; [exact Hr |]].
    right. split; [reflexivity |]. split.
    + change cAlertCauseMask with (Z.ones 5 - 1).
      pose proof (buffer_value_range buffer) as Hb.
      assert (H30 : Z.land (buffer_value buffer) 30
                    = Z.land (Z.land (buffer_value buffer) (Z.ones 5)) 30).
      { rewrite <- Z.land_assoc. reflexivity. }
      change (Z.ones 5 - 1) with 30. rewrite H30.
      rewrite Z.land_ones by lia.
      pose proof (Z.mod_pos_bound (buffer_value buffer) (2 ^ 5) ltac:(lia)) as Hm.
      set (x := buffer_value buffer mod 2 ^ 5) in *.
      assert (Hx : 0 <= x <= 31) by (change (2 ^ 5) with 32 in Hm; lia).
      clearbody x. clear -Hx.
      assert (Hc : x = 0 \/ x = 1 \/ x = 2 \/ x = 3 \/ x = 4 \/ x = 5 \/ x = 6
                   \/ x = 7 \/ x = 8 \/ x = 9 \/ x = 10 \/ x = 11 \/ x = 12
                   \/ x = 13 \/ x = 14 \/ x = 15 \/ x = 16 \/ x = 17 \/ x = 18
                   \/ x = 19 \/ x = 20 \/ x = 21 \/ x = 22 \/ x = 23 \/ x = 24
                   \/ x = 25 \/ x = 26 \/ x = 27 \/ x = 28 \/ x = 29 \/ x = 30
                   \/ x = 31) by lia.
      repeat (destruct Hc as [-> | Hc]; [simpl; lia |]). subst x. simpl. lia.
    + exists buffer. rewrite Eevs, last_app_two.
      split; [reflexivity | split; reflexivity].
  - unfold ret. do 4 eexists. split; [reflexivity |].
    split; [exact Hw | split; [exact Hr |]]. left. reflexivity.
Qed.

(** ** Calibration, further *)

Lemma calibration_quotient_over_zero (s : bool) :
  double_to_uint16 (ddiv lit_0_00521 (S754_zero s)) = None.
Proof. destruct s; reflexivity. Qed.

Lemma calibration_quotient_over_nan :
  double_to_uint16 (ddiv lit_0_00521 S754_nan) = None.
Proof. reflexivity. Qed.

(** X16.  A shunt resistance of zero, or a maximal current of zero, makes
    the calibration quotient 0.00521 / (R * LSB) a division by zero: the
    quotient is an infinity or a NaN, its conversion to [uint16_t] is not
    defined, and [INA226_setupCalibration] has no defined result, whatever
    the other argument is.  Nothing in the function guards against it. *)
Theorem setupCalibration_divides_by_zero
        (this : INA226_config) (x : double) (s : bool) (w : world bus) :
  INA226_setupCalibration bus Transmit this (S754_zero s) x w = None
  /\ INA226_setupCalibration bus Transmit this x (S754_zero s) w = None.
Proof.
  unfold INA226_setupCalibration. split.
  - destruct (double_to_int32 _); [| reflexivity].
    match goal with
    | |- context [dmul (S754_zero s) ?y] => destruct y as [sy | sy | | sy my ey]
    end; simpl dmul;
      rewrite ?calibration_quotient_over_zero, ?calibration_quotient_over_nan;
      reflexivity.
  - replace (ceil (ddiv (dmul (S754_zero s) lit_1000000_0) lit_32767_0))
      with (S754_zero s) by (destruct s; reflexivity).
    replace (ddiv (S754_zero s) lit_1000000_0) with (S754_zero s)
      by (destruct s; reflexivity).
    destruct (double_to_int32 _); [| reflexivity].
    destruct x as [sx | sx | | sx mx ex]; simpl dmul;
      rewrite ?calibration_quotient_over_zero, ?calibration_quotient_over_nan;
      reflexivity.
Qed.

(** ** Alert pin trigger, further *)

Lemma CALL_FN_write_step (L : Type) (aRegister aValue : Z)
      (k : INA226_config * L -> io bus (status * (INA226_config * L)))
      (this : INA226_config) (l : L) (w : world bus) :
  exists t1 t2 b,
    CALL_FN bus (on_device bus (write_step bus Transmit aRegister aValue)) k
            (this, l) w
    = (if t2 =? 0 then k (this, l)
       else ret bus (if t1 =? 0 then OK else FAIL, (this, l)))
        (mkWorld b (trace w ++
                    [EvTransmit (hi2c this) (mI2C_Address this)
                                (write_bytes aRegister aValue) t1;
                     EvTransmit (hi2c this) (mI2C_Address this)
                                (write_bytes aRegister aValue) t2])).
Proof.
  destruct (WriteRegister_run this aRegister aValue w) as (t1 & b1 & E1).
  match type of E1 with
  | _ = Some (_, ?w1) =>
      destruct (WriteRegister_run this aRegister aValue w1) as (t2 & b2 & E2)
  end.
  exists t1, t2, b2.
  unfold CALL_FN, bind, on_device, write_step. unfold bind. simpl fst. simpl snd.
  rewrite E1. unfold ret at 1. unfold ret at 1. simpl fst. simpl snd.
  rewrite E2. unfold ret at 1. unfold ret at 1.
  simpl trace. rewrite <- app_assoc. simpl app.
  destruct (t2 =? 0); reflexivity.
Qed.

Lemma mask_enable_update (f cause : Z) (latching : bool) :
  0 <= f < 2 ^ 16 ->
  Z.land cause cAlertPinModeMask = cause ->
  let m1 := to_uint16 (Z.lor (to_uint16 (Z.land f (Z.lnot cAlertPinModeMask)))
                             (to_uint16 cause)) in
  let m := if latching then to_uint16 (Z.lor m1 cAlertLatchingMode) else m1 in
  Z.land m cAlertPinModeMask = cause
  /\ Z.land m 0x03FE = Z.land f 0x03FE
  /\ Z.land m cAlertLatchingMode = (if latching then 1 else Z.land f 1).
Proof.
  intros Hf Hc m1 m.
  assert (Hc16 : to_uint16 cause = cause).
  { rewrite to_uint16_land, <- Hc, <- Z.land_assoc. reflexivity. }
  assert (Hm1 : m1 = Z.lor (Z.land f (Z.lnot cAlertPinModeMask)) cause).
  { unfold m1. rewrite Hc16, (to_uint16_of_land f _ Hf).
    apply to_uint16_of_lor; [apply to_uint16_of_land; exact Hf | exact Hc16]. }
  destruct (field_update f cAlertPinModeMask cause Hc) as [F1 F2].
  rewrite <- Hm1 in F1, F2.
  assert (Hm1_16 : to_uint16 m1 = m1) by (unfold m1; apply to_uint16_idem).
  assert (Hlow : forall K, Z.land (Z.lnot cAlertPinModeMask) K = K ->
                           Z.land m1 K = Z.land f K).
  { intros K HK. rewrite <- HK, !Z.land_assoc, F1. reflexivity. }
  assert (H3FE : Z.land m1 0x03FE = Z.land f 0x03FE) by (apply Hlow; reflexivity).
  assert (H1 : Z.land m1 1 = Z.land f 1) by (apply Hlow; reflexivity).
  destruct latching; unfold m.
  - rewrite to_uint16_of_lor by (first [exact Hm1_16 | reflexivity]).
    rewrite !Z.land_lor_distr_l, F2, H3FE.
    change (Z.land cAlertLatchingMode cAlertPinModeMask) with 0.
    change (Z.land cAlertLatchingMode 0x03FE) with 0.
    change (Z.land cAlertLatchingMode cAlertLatchingMode) with 1.
    rewrite !Z.lor_0_r. repeat split.
    unfold cAlertLatchingMode. rewrite H1.
    change 1 with (Z.ones 1) at 1. rewrite Z.land_ones by lia.
    pose proof (Z.mod_pos_bound f (2 ^ 1) ltac:(lia)) as Hb.
    change (2 ^ 1) with 2 in *.
    assert (Hcase : f mod 2 = 0 \/ f mod 2 = 1) by lia.
    destruct Hcase as [-> | ->]; reflexivity.
  - repeat split; assumption.
Qed.

(** X10.  On an initialised device and for a cause that the [switch]
    accepts with the register count [a], [INA226_ConfigureAlertPinTrigger]
    ends in one of three ways.  The read of the mask/enable register fails
    and nothing is written.  Or the alert-limit register is written, with
    the count as an [int16_t], the write as repeated by [CALL_FN] fails,
    and the mask/enable register is not written.  Or the alert-limit write
    as repeated succeeds and the last transport call is the write of the
    mask/enable register: the cause in the bits 0xFC00 (for a cause that
    lies within these bits), the bits 0x03FE as received, and bit 0 set when
    latching is asked for and as received otherwise.  The device struct is
    unchanged throughout. *)
Theorem ConfigureAlertPinTrigger_writes_limit_then_mask
        (this : INA226_config) (aAlertTrigger aValue a : Z) (aLatching : bool)
        (w : world bus) :
  mInitialized this = true ->
  Z.land aAlertTrigger cAlertPinModeMask = aAlertTrigger ->
  alert_value PowerOverLimit ClearTriggers ConversionReady
              ShuntVoltageOverLimit ShuntVoltageUnderLimit
              BusVoltageOverLimit BusVoltageUnderLimit
              this aAlertTrigger (to_int32 aValue) = Some (Some a) ->
  exists st b evs,
    INA226_ConfigureAlertPinTrigger
      bus Transmit Receive PowerOverLimit ClearTriggers ConversionReady
      ShuntVoltageOverLimit ShuntVoltageUnderLimit BusVoltageOverLimit
      BusVoltageUnderLimit this aAlertTrigger aValue aLatching w
    = Some ((st, this), mkWorld b (trace w ++ evs))
    /\ ((Forall (fun e => is_write e = false) evs
         /\ failed (last evs (EvCheck 0 0 0 0)) = true)
        \/ (exists pre buffer t1 t2,
               evs = pre ++ [EvReceive (hi2c this) (mI2C_Address this) 2 buffer 0;
                             EvTransmit (hi2c this) (mI2C_Address this)
                                        (write_bytes INA226_ALERT_LIMIT (to_int16 a))
                                        t1;
                             EvTransmit (hi2c this) (mI2C_Address this)
                                        (write_bytes INA226_ALERT_LIMIT (to_int16 a))
                                        t2]
               /\ Forall (fun e => is_write e = false) pre
               /\ t2 <> 0
               /\ st = (if t1 =? 0 then OK else FAIL))
        \/ (exists pre buffer t1 t3 m,
               evs = pre ++ [EvReceive (hi2c this) (mI2C_Address this) 2 buffer 0;
                             EvTransmit (hi2c this) (mI2C_Address this)
                                        (write_bytes INA226_ALERT_LIMIT (to_int16 a))
                                        t1;
                             EvTransmit (hi2c this) (mI2C_Address this)
                                        (write_bytes INA226_ALERT_LIMIT (to_int16 a))
                                        0;
                             EvTransmit (hi2c this) (mI2C_Address this)
                                        (write_bytes INA226_MASK_ENABLE m) t3]
               /\ Forall (fun e => is_write e = false) pre
               /\ st = (if t3 =? 0 then OK else FAIL)
               /\ Z.land m cAlertPinModeMask = aAlertTrigger
               /\ Z.land m 0x03FE = Z.land (buffer_value buffer) 0x03FE
               /\ Z.land m cAlertLatchingMode
                  = (if aLatching then 1 else Z.land (buffer_value buffer) 1))).
Proof.
  intros Hinit Hcause Ha.
  unfold INA226_ConfigureAlertPinTrigger, CHECK_INITIALIZED.
  rewrite Hinit. cbn [negb]. unfold bind at 1.
  match goal with
  | |- context [CALL_FN _ _ ?k _ _] =>
      destruct (CALL_FN_read_local INA226_MASK_ENABLE k this 0 w)
        as (s1 & v1 & evs1 & s2 & v2 & evs2 & b & R1 & R2 & E)
  end.
  rewrite E. clear E.
  destruct (status_eqb s2 OK) eqn:Hs2.
  - destruct (read_run_succeeded_inv _ _ _ _ _ R2 Hs2) as (buffer & Ev & Eevs).
    subst v2 evs2. cbv zeta. cbn [fst snd]. rewrite Ha.
    destruct (mask_enable_update (buffer_value buffer) aAlertTrigger aLatching
                                 (buffer_value_range buffer) Hcause)
      as (M1 & M2 & M3).
    match goal with
    | |- context [CALL_FN _ (on_device _ (write_step _ _ ?r ?v)) ?k (?c, ?l) ?w0] =>
        destruct (CALL_FN_write_step Z r v k c l w0) as (t1 & t2 & b' & E)
    end.
    rewrite E. clear E. simpl trace.
    assert (Hpre : Forall (fun e => is_write e = false)
                          (evs1 ++ [EvTransmit (hi2c this) (mI2C_Address this)
                                               [to_uint8 INA226_MASK_ENABLE] 0])).
    { apply Forall_app. split.
      - exact (read_run_no_write _ _ _ _ _ R1).
      - repeat constructor. }
    destruct (t2 =? 0) eqn:Et2.
    + apply Z.eqb_eq in Et2. subst t2.
      unfold on_device, write_step, bind. unfold bind. cbn [fst snd].
      match goal with
      | |- context [WriteRegister ?c ?r ?v ?w0] =>
          destruct (WriteRegister_run c r v w0) as (t3 & b3 & E)
      end.
      rewrite E. unfold ret. simpl trace.
      do 3 eexists. split; [rewrite <- !app_assoc; reflexivity |].
      right. right.
      eexists (evs1 ++ [EvTransmit (hi2c this) (mI2C_Address this)
                                   [to_uint8 INA226_MASK_ENABLE] 0]),
        buffer, t1, t3, _.
      split; [rewrite <- !app_assoc; reflexivity |].
      split; [exact Hpre |]. split; [reflexivity |].
      split; [exact M1 | split; [exact M2 | exact M3]].
    + apply Z.eqb_neq in Et2. unfold ret.
      do 3 eexists. split; [rewrite <- !app_assoc; reflexivity |].
      right. left.
      exists (evs1 ++ [EvTransmit (hi2c this) (mI2C_Address this)
                                  [to_uint8 INA226_MASK_ENABLE] 0]),
        buffer, t1, t2.
      split; [rewrite <- !app_assoc; reflexivity |].
      split; [exact Hpre |]. split; [exact Et2 | reflexivity].
  - unfold ret. do 3 eexists. split; [reflexivity |].
    left. split.
    + apply Forall_app. split; eapply read_run_no_write; eassumption.
    + destruct (read_run_failed_last _ _ _ _ _ R2 Hs2) as (pre & e & Ee & Hf).
      rewrite Ee, app_assoc, last_last. exact Hf.
Qed.

(** ** Alert thresholds and the readings they are compared with *)

Lemma to_uint16_to_int16 (z : Z) : to_uint16 (to_int16 z) = to_uint16 z.
Proof.
  unfold to_uint16, to_int16.
  rewrite <- (Z.add_opp_r _ (2 ^ 15)).
  rewrite <- Zplus_mod_idemp_l, Z.mod_mod by lia.
  rewrite Zplus_mod_idemp_l.
  f_equal. lia.
Qed.

Lemma to_int16_to_uint16 (z : Z) : to_int16 (to_uint16 z) = to_int16 z.
Proof.
  unfold to_uint16, to_int16. f_equal.
  rewrite Zplus_mod_idemp_l. reflexivity.
Qed.

Lemma to_int16_small (z : Z) : - 2 ^ 15 <= z < 2 ^ 15 -> to_int16 z = z.
Proof. unfold to_int16. intros H. rewrite Z.mod_small; lia. Qed.

(** X11.  A bus-voltage threshold [v] from 0 up to (not including)
    65536 * 1250 microvolts is turned by the [switch] of
    [INA226_ConfigureAlertPinTrigger] into the count [v / 1250], which the
    alert-limit write carries unchanged; a bus-voltage register holding
    that count is reported by [INA226_GetBusVoltage_uV] as [v] rounded down
    to a multiple of 1250. *)
Theorem bus_voltage_threshold_round_trip
        (this : INA226_config) (aAlertTrigger v : Z) :
  aAlertTrigger <> PowerOverLimit ->
  aAlertTrigger <> ClearTriggers ->
  aAlertTrigger <> ConversionReady ->
  aAlertTrigger <> ShuntVoltageOverLimit ->
  aAlertTrigger <> ShuntVoltageUnderLimit ->
  aAlertTrigger = BusVoltageOverLimit \/ aAlertTrigger = BusVoltageUnderLimit ->
  0 <= v < 65536 * 1250 ->
  exists a,
    alert_value PowerOverLimit ClearTriggers ConversionReady
                ShuntVoltageOverLimit ShuntVoltageUnderLimit
                BusVoltageOverLimit BusVoltageUnderLimit
                this aAlertTrigger (to_int32 v) = Some (Some a)
    /\ a = v / 1250
    /\ write_bytes INA226_ALERT_LIMIT (to_int16 a) = write_bytes INA226_ALERT_LIMIT a
    /\ to_uint16 a = a
    /\ forall (dev : INA226) (w w' : world bus) (st : status),
        ReadRegister (Config dev) INA226_BUS_VOLTAGE w = Some ((st, a), w') ->
        INA226_GetBusVoltage_uV bus Transmit Receive dev w
        = Some (v - v mod 1250, w').
Proof.
  intros H1 H2 H3 H4 H5 Hb Hv.
  exists (v / 1250).
  assert (Ha : 0 <= v / 1250 < 65536).
  { split; [apply Z.div_pos; lia | apply Z.div_lt_upper_bound; lia]. }
  split.
  - unfold alert_value.
    apply Z.eqb_neq in H1, H2, H3, H4, H5. rewrite H1, H2, H3, H4, H5.
    assert (Hc : (aAlertTrigger =? BusVoltageOverLimit)
                 || (aAlertTrigger =? BusVoltageUnderLimit) = true).
    { apply orb_true_iff.
      destruct Hb as [-> | ->]; [left | right]; apply Z.eqb_refl. }
    cbn [orb]. rewrite Hc.
    rewrite to_int32_small by (unfold INT32_MIN, INT32_MAX; lia).
    unfold int32_div, INA226_BUS_VOLTAGE_LSB.
    assert (Hm : (v =? INT32_MIN) = false)
      by (apply Z.eqb_neq; unfold INT32_MIN; lia).
    rewrite Hm. cbn [Z.eqb andb orb option_map].
    rewrite Z.quot_div_nonneg by lia. reflexivity.
  - split; [reflexivity |]. split; [| split].
    + unfold write_bytes. rewrite to_uint16_to_int16. reflexivity.
    + apply to_uint16_small. lia.
    + intros dev w w' st E.
      unfold INA226_GetBusVoltage_uV, bind, ret. rewrite E.
      unfold INA226_BUS_VOLTAGE_LSB.
      rewrite to_int32_small by (unfold INT32_MIN, INT32_MAX; lia).
      f_equal. f_equal.
      pose proof (Z.div_mod v 1250 ltac:(lia)). lia.
Qed.

(** X12.  A shunt-voltage threshold [v] from -81920 to 81919 microvolts is
    turned by the [switch] into the count [(v * 2) / 5], rounded towards
    zero, which fits the 16-bit alert-limit register; a shunt-voltage
    register holding that count is reported by [INA226_GetShuntVoltage_uV]
    as a value no further from zero than [v] and at most 2 microvolts away
    from it. *)
Theorem shunt_voltage_threshold_round_trip
        (this : INA226_config) (aAlertTrigger v : Z) :
  aAlertTrigger <> PowerOverLimit ->
  aAlertTrigger <> ClearTriggers ->
  aAlertTrigger <> ConversionReady ->
  aAlertTrigger = ShuntVoltageOverLimit \/ aAlertTrigger = ShuntVoltageUnderLimit ->
  -81920 <= v <= 81919 ->
  exists a r,
    alert_value PowerOverLimit ClearTriggers ConversionReady
                ShuntVoltageOverLimit ShuntVoltageUnderLimit
                BusVoltageOverLimit BusVoltageUnderLimit
                this aAlertTrigger (to_int32 v) = Some (Some a)
    /\ a = Z.quot (v * 2) 5
    /\ to_int16 a = a
    /\ Z.abs r <= Z.abs v
    /\ Z.abs (v - r) <= 2
    /\ forall (dev : INA226) (w w' : world bus) (st : status),
        ReadRegister (Config dev) INA226_SHUNT_VOLTAGE w
        = Some ((st, to_uint16 a), w') ->
        INA226_GetShuntVoltage_uV bus Transmit Receive dev w = Some (r, w').
Proof.
  intros H1 H2 H3 Hs Hv.
  exists (Z.quot (v * 2) 5), (Z.quot (v * 2) 5 * 2 + Z.quot (v * 2) 5 / 2).
  destruct (shunt_threshold_arith v Hv) as (Ha & Hr & Hd).
  split.
  - unfold alert_value.
    apply Z.eqb_neq in H1, H2, H3. rewrite H1, H2, H3.
    assert (Hc : (aAlertTrigger =? ShuntVoltageOverLimit)
                 || (aAlertTrigger =? ShuntVoltageUnderLimit) = true).
    { apply orb_true_iff.
      destruct Hs as [-> | ->]; [left | right]; apply Z.eqb_refl. }
    cbn [orb]. rewrite Hc.
    rewrite (to_int32_small v) by (unfold INT32_MIN, INT32_MAX; lia).
    rewrite Z.shiftl_mul_pow2 by lia. change (2 ^ 1) with 2.
    rewrite to_int32_small by (unfold INT32_MIN, INT32_MAX; lia).
    unfold int32_div.
    assert (Hm : (v * 2 =? INT32_MIN) = false)
      by (apply Z.eqb_neq; unfold INT32_MIN; lia).
    rewrite Hm. reflexivity.
  - split; [reflexivity |].
    split; [apply to_int16_small; exact Ha |].
    split; [exact Hr | split; [exact Hd |]].
    intros dev w w' st E.
    unfold INA226_GetShuntVoltage_uV, bind, ret. rewrite E.
    rewrite to_int16_to_uint16, (to_int16_small _ Ha).
    set (a := Z.quot (v * 2) 5) in *.
    rewrite Z.shiftr_div_pow2, Z.shiftl_mul_pow2 by lia.
    change (2 ^ 1) with 2. change (2 ^ 15) with 32768 in Ha.
    assert (D : -16384 <= a / 2 < 16384).
    { split; [apply Z.div_le_lower_bound | apply Z.div_lt_upper_bound]; lia. }
    rewrite (to_int32_small (a / 2)) by (unfold INT32_MIN, INT32_MAX; lia).
    rewrite (to_int32_small (a * 2)) by (unfold INT32_MIN, INT32_MAX; lia).
    rewrite to_int32_small by (unfold INT32_MIN, INT32_MAX; lia).
    f_equal. f_equal. lia.
Qed.

(** X13.  With a positive power scale, a power threshold [v] from 0 to
    [INT32_MAX] whose count [v / scale] is below 65536 is turned by the
    [switch] into that count, which the alert-limit write carries
    unchanged; a power register holding the count is reported by
    [INA226_GetPower_uW], on a device with the same scale, as [v] rounded
    down to a multiple of the scale. *)
Theorem power_threshold_round_trip (this : INA226_config) (v : Z) :
  0 < mPowerMicroWattPerBit this ->
  0 <= v <= INT32_MAX ->
  v / mPowerMicroWattPerBit this < 65536 ->
  exists a,
    alert_value PowerOverLimit ClearTriggers ConversionReady
                ShuntVoltageOverLimit ShuntVoltageUnderLimit
                BusVoltageOverLimit BusVoltageUnderLimit
                this PowerOverLimit (to_int32 v) = Some (Some a)
    /\ a = v / mPowerMicroWattPerBit this
    /\ write_bytes INA226_ALERT_LIMIT (to_int16 a) = write_bytes INA226_ALERT_LIMIT a
    /\ to_uint16 a = a
    /\ forall (dev : INA226) (w w' : world bus) (st : status),
        Config dev = this ->
        ReadRegister (Config dev) INA226_POWER w = Some ((st, a), w') ->
        INA226_GetPower_uW bus Transmit Receive dev w
        = Some (v - v mod mPowerMicroWattPerBit this, w').
Proof.
  intros Hp Hv Ha.
  unfold INT32_MAX in Hv.
  exists (v / mPowerMicroWattPerBit this).
  assert (Ha0 : 0 <= v / mPowerMicroWattPerBit this) by (apply Z.div_pos; lia).
  pose proof (Z.div_mod v (mPowerMicroWattPerBit this) ltac:(lia)) as Hdm.
  pose proof (Z.mod_pos_bound v (mPowerMicroWattPerBit this) Hp) as Hmod.
  split.
  - unfold alert_value. rewrite Z.eqb_refl.
    rewrite to_int32_small by (unfold INT32_MIN, INT32_MAX; lia).
    unfold int32_div.
    assert (Hz : (mPowerMicroWattPerBit this =? 0) = false)
      by (apply Z.eqb_neq; lia).
    rewrite Hz. cbn [orb].
    assert (Hm : (v =? INT32_MIN) = false)
      by (apply Z.eqb_neq; unfold INT32_MIN; lia).
    rewrite Hm. cbn [andb option_map].
    rewrite Z.quot_div_nonneg by lia. reflexivity.
  - split; [reflexivity |]. split; [| split].
    + unfold write_bytes. rewrite to_uint16_to_int16. reflexivity.
    + apply to_uint16_small. lia.
    + intros dev w w' st Hd E.
      unfold INA226_GetPower_uW, bind, ret. rewrite E, Hd.
      rewrite to_int32_small by (unfold INT32_MIN, INT32_MAX; nia).
      f_equal. f_equal. nia.
Qed.

(** ** Initialisation *)

Lemma CALL_FN_check (L : Type) (aI2C_Address : Z)
      (k : INA226_config * L -> io bus (status * (INA226_config * L)))
      (this : INA226_config) (l : L) (w : world bus) :
  exists r1 r2 b,
    CALL_FN bus
            (on_device bus
               (fun c => bind bus (INA226_CheckI2cAddress bus Check_device c
                                                          aI2C_Address)
                              (fun st => ret bus (st, c))))
            k (this, l) w
    = (if r2 =? 0 then k (this, l)
       else ret bus (if r1 =? 0 then OK else INVALID_I2C_ADDRESS, (this, l)))
        (mkWorld b (trace w ++
                    [EvCheck (hi2c this) (to_uint16 aI2C_Address) 10 r1;
                     EvCheck (hi2c this) (to_uint16 aI2C_Address) 10 r2])).
Proof.
  unfold CALL_FN, on_device, INA226_CheckI2cAddress, bind, call_Check_device.
  cbn [fst snd].
  destruct (Check_device _ _ _ _ (bus_state w)) as [r1 b1]. cbn [bus_state trace].
  destruct (Check_device (hi2c this) (mI2C_Address this)
                         (to_uint16 aI2C_Address) 10 b1) as [r2 b2] eqn:E2.
  exists r1, r2, b2.
  destruct (r1 =? 0); unfold ret; cbn [fst snd bus_state trace]; rewrite E2;
    cbn [fst snd bus_state trace]; rewrite <- app_assoc; simpl app;
    destruct (r2 =? 0); reflexivity.
Qed.

Lemma CALL_FN_read_config_on_device (L : Type)
      (k : INA226_config * L -> io bus (status * (INA226_config * L)))
      (this : INA226_config) (l : L) (w : world bus) :
  exists s1 v1 evs1 s2 v2 evs2 b,
    read_run this INA226_CONFIG s1 v1 evs1
    /\ read_run this INA226_CONFIG s2 v2 evs2
    /\ CALL_FN bus (on_device bus (read_into_mConfigRegister bus Transmit Receive))
               k (this, l) w
       = (if status_eqb s2 OK then k (set_mConfigRegister this v2, l)
          else ret bus (s1, (set_mConfigRegister this v2, l)))
           (mkWorld b (trace w ++ evs1 ++ evs2)).
Proof.
  destruct (ReadRegister_run this INA226_CONFIG w)
    as (s1 & v1 & b1 & evs1 & E1 & R1).
  destruct (ReadRegister_run (set_mConfigRegister this v1) INA226_CONFIG
                             (mkWorld b1 (trace w ++ evs1)))
    as (s2 & v2 & b2 & evs2 & E2 & R2).
  exists s1, v1, evs1, s2, v2, evs2, b2.
  split; [exact R1 | split; [exact (read_run_set_mConfigRegister _ _ _ _ _ _ R2) |]].
  unfold CALL_FN, on_device, bind, read_into_mConfigRegister.
  unfold bind. cbn [fst snd]. rewrite E1. unfold ret at 1. unfold ret at 1.
  cbn [fst snd]. rewrite E2. unfold ret at 1. unfold ret at 1.
  simpl trace. rewrite <- app_assoc.
  destruct (status_eqb s2 OK); reflexivity.
Qed.

Lemma setupCalibration_run (this : INA226_config)
      (aShuntResistor_Ohms aMaxCurrent_Amps : double) (cur cal : Z)
      (w : world bus) :
  double_to_int32 (ceil (ddiv (dmul aMaxCurrent_Amps lit_1000000_0) lit_32767_0))
  = Some cur ->
  double_to_uint16
    (ddiv lit_0_00521
          (dmul aShuntResistor_Ohms
                (ddiv (ceil (ddiv (dmul aMaxCurrent_Amps lit_1000000_0) lit_32767_0))
                      lit_1000000_0)))
  = Some cal ->
  exists t b,
    INA226_setupCalibration bus Transmit this aShuntResistor_Ohms aMaxCurrent_Amps w
    = Some ((if t =? 0 then OK else FAIL,
             set_calibration this cur cal (to_int32 (cur * INA226_POWER_LSB_FACTOR))),
            mkWorld b (trace w ++
                       [EvTransmit (hi2c this) (mI2C_Address this)
                                   (write_bytes INA226_CALIBRATION cal) t])).
Proof.
  intros Hcur Hcal. unfold INA226_setupCalibration. rewrite Hcur, Hcal.
  unfold bind.
  match goal with
  | |- context [WriteRegister ?c ?r ?v ?w0] =>
      destruct (WriteRegister_run c r v w0) as (t & b & E)
  end.
  rewrite E. unfold ret. exists t, b. reflexivity.
Qed.

Lemma CALL_FN_setupCalibration (L : Type)
      (k : INA226_config * L -> io bus (status * (INA226_config * L)))
      (this : INA226_config) (l : L)
      (aShuntResistor_Ohms aMaxCurrent_Amps : double) (cur cal : Z)
      (w : world bus) :
  double_to_int32 (ceil (ddiv (dmul aMaxCurrent_Amps lit_1000000_0) lit_32767_0))
  = Some cur ->
  double_to_uint16
    (ddiv lit_0_00521
          (dmul aShuntResistor_Ohms
                (ddiv (ceil (ddiv (dmul aMaxCurrent_Amps lit_1000000_0) lit_32767_0))
                      lit_1000000_0)))
  = Some cal ->
  exists t1 t2 b evs,
    CALL_FN bus
            (on_device bus
               (fun c => INA226_setupCalibration bus Transmit c
                           aShuntResistor_Ohms aMaxCurrent_Amps))
            k (this, l) w
    = (if t2 =? 0
       then k (set_calibration this cur cal
                               (to_int32 (cur * INA226_POWER_LSB_FACTOR)), l)
       else ret bus (if t1 =? 0 then OK else FAIL,
                     (set_calibration this cur cal
                                      (to_int32 (cur * INA226_POWER_LSB_FACTOR)), l)))
        (mkWorld b (trace w ++ evs)).
Proof.
  intros Hcur Hcal.
  destruct (setupCalibration_run this _ _ cur cal w Hcur Hcal) as (t1 & b1 & E1).
  match type of E1 with
  | _ = Some ((_, ?c1), ?w1) =>
      destruct (setupCalibration_run c1 _ _ cur cal w1 Hcur Hcal) as (t2 & b2 & E2)
  end.
  exists t1, t2, b2. eexists.
  unfold CALL_FN, on_device, bind. cbn [fst snd].
  rewrite E1. unfold ret at 1. cbn [fst snd].
  rewrite E2. unfold ret at 1. simpl trace. rewrite <- app_assoc.
  destruct (t2 =? 0); reflexivity.
Qed.

Lemma Init_run (this : INA226) (i2c_device aI2C_Address : Z)
      (aShuntResistor_Ohms aMaxCurrent_Amps : double) (cur cal : Z)
      (w : world bus) :
  double_to_int32 (ceil (ddiv (dmul aMaxCurrent_Amps lit_1000000_0) lit_32767_0))
  = Some cur ->
  double_to_uint16
    (ddiv lit_0_00521
          (dmul aShuntResistor_Ohms
                (ddiv (ceil (ddiv (dmul aMaxCurrent_Amps lit_1000000_0) lit_32767_0))
                      lit_1000000_0)))
  = Some cal ->
  exists st cfg b evs,
    INA226_Init bus Check_device Transmit Receive this i2c_device aI2C_Address
                aShuntResistor_Ohms aMaxCurrent_Amps w
    = Some ((st, mkINA226 cfg (Result this)), mkWorld b (trace w ++ evs))
    /\ Init_outcome i2c_device aI2C_Address cur cal st cfg evs.
Proof.
  intros Hcur Hcal.
  unfold INA226_Init. unfold bind at 1. unfold set_Config.
  set (cfg0 := INA226_Constructor (Config this) i2c_device (to_uint8 aI2C_Address)).
  assert (Hh : hi2c cfg0 = i2c_device) by reflexivity.
  assert (Had : mI2C_Address cfg0 = to_uint8 aI2C_Address)
    by (unfold cfg0; simpl; apply to_uint8_idem).
  (* probe *)
  match goal with
  | |- context [CALL_FN _ _ ?k (cfg0, 0) w] =>
      destruct (CALL_FN_check Z (to_uint8 aI2C_Address) k cfg0 0 w)
        as (r1 & r2 & b1 & E)
  end.
  rewrite E. clear E.
  set (ev1 := [EvCheck (hi2c cfg0) (to_uint16 (to_uint8 aI2C_Address)) 10 r1;
               EvCheck (hi2c cfg0) (to_uint16 (to_uint8 aI2C_Address)) 10 r2]).
  assert (N1 : Forall (fun e => is_write e = false) ev1) by (repeat constructor).
  destruct (r2 =? 0).
  2:{ unfold ret. exists (if r1 =? 0 then OK else INVALID_I2C_ADDRESS), cfg0, b1, ev1.
      split; [reflexivity |]. split; [exact Hh | split; [exact Had |]].
      left. repeat split; auto. destruct (r1 =? 0); auto. }
  (* manufacturer ID *)
  match goal with
  | |- context [CALL_FN _ (read_into_local _ _ _ ?r) ?k (cfg0, 0) ?w0] =>
      destruct (CALL_FN_read_local r k cfg0 0 w0)
        as (s1 & v1 & ea1 & s2 & v2 & ea2 & b2 & Ra1 & Ra2 & E)
  end.
  rewrite E. clear E. simpl trace.
  assert (N2 : Forall (fun e => is_write e = false) (ev1 ++ ea1 ++ ea2)).
  { repeat (apply Forall_app; split); try exact N1;
      eapply read_run_no_write; eassumption. }
  assert (S1 : s1 = OK \/ s1 = FAIL) by (destruct Ra1; auto).
  destruct (status_eqb s2 OK).
  2:{ unfold ret. exists s1, cfg0, b2, (ev1 ++ ea1 ++ ea2).
      split; [rewrite <- !app_assoc; reflexivity |].
      split; [exact Hh | split; [exact Had |]].
      left. repeat split; auto. destruct S1; auto. }
  cbn [fst snd].
  destruct (negb (v2 =? INA226_MANUFACTURER_ID_K)).
  { unfold ret. exists INA226_TI_ID_MISMATCH, cfg0, b2, (ev1 ++ ea1 ++ ea2).
    split; [rewrite <- !app_assoc; reflexivity |].
    split; [exact Hh | split; [exact Had |]].
    left. repeat split; auto. }
  (* die ID *)
  match goal with
  | |- context [CALL_FN _ (read_into_local _ _ _ ?r) ?k (cfg0, ?l) ?w0] =>
      destruct (CALL_FN_read_local r k cfg0 l w0)
        as (s3 & v3 & eb1 & s4 & v4 & eb2 & b3 & Rb1 & Rb2 & E)
  end.
  rewrite E. clear E. simpl trace.
  assert (N3 : Forall (fun e => is_write e = false)
                      ((ev1 ++ ea1 ++ ea2) ++ eb1 ++ eb2)).
  { repeat (apply Forall_app; split); try exact N1;
      eapply read_run_no_write; eassumption. }
  assert (S3 : s3 = OK \/ s3 = FAIL) by (destruct Rb1; auto).
  destruct (status_eqb s4 OK).
  2:{ unfold ret. exists s3, cfg0, b3, ((ev1 ++ ea1 ++ ea2) ++ eb1 ++ eb2).
      split; [rewrite <- !app_assoc; reflexivity |].
      split; [exact Hh | split; [exact Had |]].
      left. repeat split; auto. destruct S3; auto. }
  cbn [fst snd].
  destruct (negb (v4 =? INA226_DIE_ID_K)).
  { unfold ret. exists INA226_DIE_ID_MISMATCH, cfg0, b3,
      ((ev1 ++ ea1 ++ ea2) ++ eb1 ++ eb2).
    split; [rewrite <- !app_assoc; reflexivity |].
    split; [exact Hh | split; [exact Had |]].
    left. repeat split; auto. }
  (* reset *)
  match goal with
  | |- context [CALL_FN _ (on_device _ (write_step _ _ ?r ?v)) ?k (cfg0, ?l) ?w0] =>
      destruct (CALL_FN_write_step Z r v k cfg0 l w0) as (t1 & t2 & b4 & E)
  end.
  rewrite E. clear E. simpl trace.
  destruct (t2 =? 0).
  2:{ unfold ret. do 4 eexists.
      split; [rewrite <- !app_assoc; reflexivity |].
      split; [exact Hh | split; [exact Had |]].
      right. left. split; [reflexivity |]. destruct (t1 =? 0); auto. }
  (* default configuration *)
  match goal with
  | |- context [CALL_FN _ (on_device _ (write_step _ _ ?r ?v)) ?k (cfg0, ?l) ?w0] =>
      destruct (CALL_FN_write_step Z r v k cfg0 l w0) as (t3 & t4 & b5 & E)
  end.
  rewrite E. clear E. simpl trace.
  destruct (t4 =? 0).
  2:{ unfold ret. do 4 eexists.
      split; [rewrite <- !app_assoc; reflexivity |].
      split; [exact Hh | split; [exact Had |]].
      right. left. split; [reflexivity |]. destruct (t3 =? 0); auto. }
  (* read back *)
  match goal with
  | |- context [CALL_FN _ (on_device _ (read_into_mConfigRegister _ _ _)) ?k
                        (cfg0, ?l) ?w0] =>
      destruct (CALL_FN_read_config_on_device Z k cfg0 l w0)
        as (s5 & v5 & ec1 & s6 & v6 & ec2 & b6 & Rc1 & Rc2 & E)
  end.
  rewrite E. clear E. simpl trace.
  assert (S5 : s5 = OK \/ s5 = FAIL) by (destruct Rc1; auto).
  destruct (status_eqb s6 OK).
  2:{ unfold ret. do 4 eexists.
      split; [rewrite <- !app_assoc; reflexivity |].
      split; [exact Hh | split; [exact Had |]].
      right. left. split; [reflexivity |]. destruct S5; auto. }
  cbn [fst snd]. change (mConfigRegister (set_mConfigRegister cfg0 v6)) with v6.
  destruct (v6 =? INA226_CONFIG_DEFAULT) eqn:Ecfg; cbn [negb].
  2:{ unfold ret. do 4 eexists.
      split; [rewrite <- !app_assoc; reflexivity |].
      split; [exact Hh | split; [exact Had |]].
      right. left. split; [reflexivity |]. auto. }
  apply Z.eqb_eq in Ecfg. subst v6.
  (* calibration *)
  match goal with
  | |- context [CALL_FN _ _ ?k (?c, ?l) ?w0] =>
      destruct (CALL_FN_setupCalibration Z k c l aShuntResistor_Ohms
                                         aMaxCurrent_Amps cur cal w0 Hcur Hcal)
        as (t5 & t6 & b7 & ed & E)
  end.
  rewrite E. clear E. simpl trace.
  destruct (t6 =? 0).
  - unfold ret. cbn [fst snd]. do 4 eexists.
    split; [rewrite <- !app_assoc; reflexivity |].
    split; [exact Hh | split; [exact Had |]].
    right. right. repeat split.
  - unfold ret. do 4 eexists.
    split; [rewrite <- !app_assoc; reflexivity |].
    split; [exact Hh | split; [exact Had |]].
    right. left. split; [reflexivity |]. destruct (t5 =? 0); auto.
Qed.


(** X17.  Provided the two conversions in the calibration are defined,
    whenever [INA226_Init] reports an invalid address or a manufacturer or
    die identifier mismatch, it has written no register: its transport
    calls are the probe and register reads only, and the device is left as
    constructed (configuration, calibration and scale factors 0, not
    initialised). *)
Theorem Init_identity_errors_precede_every_write
        (this : INA226) (i2c_device aI2C_Address : Z)
        (aShuntResistor_Ohms aMaxCurrent_Amps : double) (cur cal : Z)
        (w : world bus) :
  double_to_int32 (ceil (ddiv (dmul aMaxCurrent_Amps lit_1000000_0) lit_32767_0))
  = Some cur ->
  double_to_uint16
    (ddiv lit_0_00521
          (dmul aShuntResistor_Ohms
                (ddiv (ceil (ddiv (dmul aMaxCurrent_Amps lit_1000000_0) lit_32767_0))
                      lit_1000000_0)))
  = Some cal ->
  exists st cfg b evs,
    INA226_Init bus Check_device Transmit Receive this i2c_device aI2C_Address
                aShuntResistor_Ohms aMaxCurrent_Amps w
    = Some ((st, mkINA226 cfg (Result this)), mkWorld b (trace w ++ evs))
    /\ ((st <> INVALID_I2C_ADDRESS /\ st <> INA226_TI_ID_MISMATCH
         /\ st <> INA226_DIE_ID_MISMATCH)
        \/ (Forall (fun e => is_write e = false) evs
            /\ cfg = INA226_Constructor (Config this) i2c_device aI2C_Address)).
Proof.
  intros Hcur Hcal.
  destruct (Init_run this i2c_device aI2C_Address _ _ cur cal w Hcur Hcal)
    as (st & cfg & b & evs & E & Hh & Ha & Ho).
  exists st, cfg, b, evs. split; [exact E |].
  destruct Ho as [(Hi & Hw & H1 & H2 & H3 & H4 & _) | [(_ & Hs) | (_ & Hs & _)]].
  - right. split; [exact Hw |].
    destruct cfg. simpl in *. subst. reflexivity.
  - left. destruct Hs as [-> | [-> | ->]]; repeat split; discriminate.
  - left. subst st. repeat split; discriminate.
Qed.

End Properties.

(* ================================================================== *)
(** * The driver on concrete inputs *)

Example lit_0_00521_is_nearest :
  lit_0_00521 = ddiv (double_of_Z 521) (double_of_Z 100000).
Proof. reflexivity. Qed.

Example lit_0_00512_is_nearest :
  lit_0_00512 = ddiv (double_of_Z 512) (double_of_Z 100000).
Proof. reflexivity. Qed.

Example ohms_0_01_is_nearest :
  ohms_0_01 = ddiv (double_of_Z 1) (double_of_Z 100).
Proof. reflexivity. Qed.

(** C3, what the code does.  For a shunt of 0.01 ohm and a maximal current
    of 20 A, [INA226_setupCalibration] stores and transmits the calibration
    value 852: the integer part of 0.00521 / (0.01 * 0.000611), with the
    constant 0.00521 of the code.  The value floor (0.00512 / (0.01 *
    0.000611)) that the comment in the source announces is 837, in exact
    arithmetic as in double arithmetic. *)
Theorem calibration_value_uses_the_constant_0_00521 :
  sim_setupCalibration fresh_config ohms_0_01 amps_20 (healthy [])
  = Some ((OK, set_calibration fresh_config 611 852 15275),
          mkWorld (mkSim [(INA226_CALIBRATION, 852)] INA226_CALIBRATION [] false)
                  [EvTransmit 1 0x40 (write_bytes INA226_CALIBRATION 852) 0])
  /\ Qfloor ((521 # 100000) / ((1 # 100) * (611 # 1000000))) = 852
  /\ Qfloor ((512 # 100000) / ((1 # 100) * (611 # 1000000))) = 837
  /\ double_to_uint16
       (ddiv lit_0_00512
             (dmul ohms_0_01 (ddiv (double_of_Z 611) lit_1000000_0)))
     = Some 837.
Proof.
  repeat split; vm_compute; reflexivity.
Qed.

(** C9, what the code does.  [CALL_FN] evaluates its step twice.  When the
    first probe of the address fails and every later transport call
    succeeds, [INA226_Init] returns [OK] and marks the device initialised:
    the failure is absorbed by the second evaluation, and every later step
    is transmitted twice as well.  When the first probe succeeds and the
    second one fails, [INA226_Init] returns at once, with the status [OK] of
    the first evaluation, and the device is not initialised. *)
Theorem Init_evaluates_each_step_twice :
  observe (sim_Init fresh_device 1 0x40 ohms_0_01 amps_20 (flaky chip_regs [true]))
  = Some (OK, true,
          [EvCheck 1 0x40 10 1; EvCheck 1 0x40 10 0;
           EvTransmit 1 0x40 [0xFE] 0; EvReceive 1 0x40 2 [0x54; 0x49] 0;
           EvTransmit 1 0x40 [0xFE] 0; EvReceive 1 0x40 2 [0x54; 0x49] 0;
           EvTransmit 1 0x40 [0xFF] 0; EvReceive 1 0x40 2 [0x22; 0x60] 0;
           EvTransmit 1 0x40 [0xFF] 0; EvReceive 1 0x40 2 [0x22; 0x60] 0;
           EvTransmit 1 0x40 [0x00; 0x80; 0x00] 0;
           EvTransmit 1 0x40 [0x00; 0x80; 0x00] 0;
           EvTransmit 1 0x40 [0x00; 0x45; 0x27] 0;
           EvTransmit 1 0x40 [0x00; 0x45; 0x27] 0;
           EvTransmit 1 0x40 [0x00] 0; EvReceive 1 0x40 2 [0x45; 0x27] 0;
           EvTransmit 1 0x40 [0x00] 0; EvReceive 1 0x40 2 [0x45; 0x27] 0;
           EvTransmit 1 0x40 [0x05; 0x03; 0x54] 0;
           EvTransmit 1 0x40 [0x05; 0x03; 0x54] 0])
  /\ observe (sim_Init fresh_device 1 0x40 ohms_0_01 amps_20
                       (flaky chip_regs [false; true]))
     = Some (OK, false, [EvCheck 1 0x40 10 0; EvCheck 1 0x40 10 1]).
Proof.
  split; vm_compute; reflexivity.
Qed.

(** ** Inputs on which a claim of the specification fails *)

(** C2: a measurement getter on a device that was only constructed reads
    the bus and returns a reading. *)
Lemma getter_on_uninitialised_device_reads_the_bus :
  mInitialized (Config fresh_device) = false
  /\ sim_GetShuntVoltage_uV fresh_device (healthy [(INA226_SHUNT_VOLTAGE, 0xFF9C)])
     = Some (-250,
             mkWorld (mkSim [(INA226_SHUNT_VOLTAGE, 0xFF9C)]
                            INA226_SHUNT_VOLTAGE [] false)
                     [EvTransmit 1 0x40 [INA226_SHUNT_VOLTAGE] 0;
                      EvReceive 1 0x40 2 [0xFF; 0x9C] 0]).
Proof. split; reflexivity. Qed.

(** C4: for a maximal current of 100 000 000 A the ceiling is 3051850948,
    above the largest [int32_t]; no value of [mCurrentMicroAmpsPerBit]
    equals it, and the conversion the code applies is not defined. *)
Lemma scale_factor_of_a_huge_current_does_not_fit :
  option_map Qceiling
             (double_value (ddiv (dmul (double_of_Z 100000000) lit_1000000_0)
                                 lit_32767_0))
  = Some 3051850948
  /\ INT32_MAX < 3051850948
  /\ sim_setupCalibration fresh_config ohms_0_01 (double_of_Z 100000000) (healthy [])
     = None.
Proof.
  split; [vm_compute; reflexivity | split; [reflexivity | vm_compute; reflexivity]].
Qed.

(** C6: with the unknown cause 0x0200 the mask/enable register is read,
    twice, before [BAD_PARAMETER] is returned. *)
Lemma unrecognised_alert_trigger_reads_the_bus :
  mInitialized ready_config = true
  /\ ~ In 0x0200 [ds_PowerOverLimit; ds_ClearTriggers; ds_ConversionReady;
                  ds_ShuntVoltageOverLimit; ds_ShuntVoltageUnderLimit;
                  ds_BusVoltageOverLimit; ds_BusVoltageUnderLimit]
  /\ sim_ConfigureAlertPinTrigger ready_config 0x0200 1000 false
                                  (healthy [(INA226_MASK_ENABLE, 0x0408)])
     = Some ((BAD_PARAMETER, ready_config),
             mkWorld (mkSim [(INA226_MASK_ENABLE, 0x0408)] INA226_MASK_ENABLE
                            [] false)
                     [EvTransmit 1 0x40 [INA226_MASK_ENABLE] 0;
                      EvReceive 1 0x40 2 [0x04; 0x08] 0;
                      EvTransmit 1 0x40 [INA226_MASK_ENABLE] 0;
                      EvReceive 1 0x40 2 [0x04; 0x08] 0]).
Proof.
  split; [reflexivity | split; [| reflexivity]].
  simpl. intros H. repeat (destruct H as [H | H]; [discriminate H |]). exact H.
Qed.

(** ** The general properties at concrete inputs *)

Lemma uncalibrated_current_and_power_read_zero_witness :
  mCurrentMicroAmpsPerBit (Config fresh_device) = 0
  /\ mPowerMicroWattPerBit (Config fresh_device) = 0
  /\ (exists w', sim_GetCurrent_uA fresh_device (healthy [(INA226_CURRENT, 1234)])
                 = Some (0, w'))
  /\ (exists w', sim_GetPower_uW fresh_device (healthy [(INA226_CURRENT, 1234)])
                 = Some (0, w')).
Proof.
  split; [reflexivity | split; [reflexivity |]].
  apply (uncalibrated_current_and_power_read_zero
           sim sim_Transmit sim_Receive fresh_device
           (healthy [(INA226_CURRENT, 1234)])); reflexivity.
Defined.

Lemma guarded_operations_need_initialisation_witness :
  mInitialized fresh_config = false
  /\ sim_Hibernate fresh_config (healthy []) = Some ((NOT_INITIALIZED, fresh_config), healthy [])
  /\ sim_Wakeup fresh_config (healthy []) = Some ((NOT_INITIALIZED, fresh_config), healthy []).
Proof.
  split; [reflexivity |].
  pose proof (guarded_operations_need_initialisation
                sim sim_Transmit sim_Receive ds_Shutdown
                ds_ShuntAndBusVoltageContinuous ds_PowerOverLimit ds_ClearTriggers
                ds_ConversionReady ds_ShuntVoltageOverLimit
                ds_ShuntVoltageUnderLimit ds_BusVoltageOverLimit
                ds_BusVoltageUnderLimit 0 fresh_config fresh_device (healthy [])
                0 0 0 0 false eq_refl) as (HH & HW & _).
  split; [exact HH | exact HW].
Defined.

Lemma setupCalibration_stores_the_scale_factors_witness :
  (double_value (ddiv (dmul amps_20 lit_1000000_0) lit_32767_0)
   = Some (5368872965000153 # pow2_pos 43)
   /\ INT32_MIN <= 25 * Qceiling (5368872965000153 # pow2_pos 43) <= INT32_MAX
   /\ fst (fst (setupCalibration_assignments ohms_0_01 amps_20)) = Some 611
   /\ snd (setupCalibration_assignments ohms_0_01 amps_20) = Some 15275)
  /\ (double_value (ddiv (dmul amps_1 lit_1000000_0) lit_32767_0)
      = Some (8590196744000244 # pow2_pos 48)
      /\ INT32_MIN <= 25 * Qceiling (8590196744000244 # pow2_pos 48) <= INT32_MAX
      /\ fst (fst (setupCalibration_assignments ohms_0_001 amps_1)) = Some 31
      /\ snd (setupCalibration_assignments ohms_0_001 amps_1) = Some 775
      /\ sim_setupCalibration fresh_config ohms_0_001 amps_1 (healthy []) = None).
Proof.
  assert (V20 : double_value (ddiv (dmul amps_20 lit_1000000_0) lit_32767_0)
                = Some (5368872965000153 # pow2_pos 43))
    by (vm_compute; reflexivity).
  assert (R20 : INT32_MIN <= 25 * Qceiling (5368872965000153 # pow2_pos 43)
                <= INT32_MAX)
    by (split; apply Z.leb_le; vm_compute; reflexivity).
  assert (V1 : double_value (ddiv (dmul amps_1 lit_1000000_0) lit_32767_0)
               = Some (8590196744000244 # pow2_pos 48))
    by (vm_compute; reflexivity).
  assert (R1 : INT32_MIN <= 25 * Qceiling (8590196744000244 # pow2_pos 48)
               <= INT32_MAX)
    by (split; apply Z.leb_le; vm_compute; reflexivity).
  split.
  - split; [exact V20 | split; [exact R20 |]].
    destruct (setupCalibration_stores_the_scale_factors
                sim sim_Transmit fresh_config ohms_0_01 amps_20 (healthy [])
                (5368872965000153 # pow2_pos 43) V20 R20) as (Hc & Hp & _).
    split; [exact Hc | exact Hp].
  - split; [exact V1 | split; [exact R1 |]].
    destruct (setupCalibration_stores_the_scale_factors
                sim sim_Transmit fresh_config ohms_0_001 amps_1 (healthy [])
                (8590196744000244 # pow2_pos 48) V1 R1) as (Hc & Hp & Hcall).
    split; [exact Hc | split; [exact Hp |]].
    exact Hcall.
Defined.

Lemma unrecognised_alert_trigger_writes_no_register_witness :
  mInitialized ready_config = true
  /\ exists st b evs,
      sim_ConfigureAlertPinTrigger ready_config 0x0200 1000 false
                                   (healthy [(INA226_MASK_ENABLE, 0x0408)])
      = Some ((st, ready_config),
              mkWorld b (trace (healthy [(INA226_MASK_ENABLE, 0x0408)]) ++ evs))
      /\ Forall (fun e => is_write e = false) evs
      /\ Forall (read_event ready_config INA226_MASK_ENABLE) evs
      /\ evs <> []
      /\ (receive_ok (last evs (EvCheck 0 0 0 0)) = true -> st = BAD_PARAMETER).
Proof.
  split; [reflexivity |].
  apply (unrecognised_alert_trigger_writes_no_register
           sim sim_Transmit sim_Receive ds_PowerOverLimit ds_ClearTriggers
           ds_ConversionReady ds_ShuntVoltageOverLimit ds_ShuntVoltageUnderLimit
           ds_BusVoltageOverLimit ds_BusVoltageUnderLimit
           ready_config 0x0200 1000 false
           (healthy [(INA226_MASK_ENABLE, 0x0408)]));
    [reflexivity | discriminate ..].
Defined.

Lemma averaging_and_conversion_time_keep_the_other_bits_witness :
  mInitialized ready_config = true
  /\ 0 <= 3 <= 7
  /\ (exists st this' b evs,
         sim_ConfigureNumSampleAveraging ready_config 3
                                         (healthy [(INA226_CONFIG, 0x4527)])
         = Some ((st, this'),
                 mkWorld b (trace (healthy [(INA226_CONFIG, 0x4527)]) ++ evs))
         /\ rmw_outcome ready_config cSampleAvgMask
                        (Z.shiftl 3 cSampleAvgIdxShift) this' evs)
  /\ (exists st this' b evs,
         sim_ConfigureVoltageConversionTime ready_config 3
                                            (healthy [(INA226_CONFIG, 0x4527)])
         = Some ((st, this'),
                 mkWorld b (trace (healthy [(INA226_CONFIG, 0x4527)]) ++ evs))
         /\ rmw_outcome ready_config
                        (Z.lor cBusVoltageConvTimeMask cShuntVoltageConvTimeMask)
                        (conversion_time_field 3) this' evs).
Proof.
  split; [reflexivity | split; [lia |]].
  apply (averaging_and_conversion_time_keep_the_other_bits
           sim sim_Transmit sim_Receive ready_config 3
           (healthy [(INA226_CONFIG, 0x4527)])); [reflexivity | lia].
Defined.

Lemma wake_after_hibernate_never_writes_shutdown_witness :
  mInitialized ready_config = true
  /\ 0 <= ds_ShuntAndBusVoltageContinuous <= 7
  /\ ds_ShuntAndBusVoltageContinuous <> 0
  /\ ds_ShuntAndBusVoltageContinuous <> ds_Shutdown
  /\ exists st1 snapshot w1 st2 v t b2,
      sim_Hibernate ready_config (healthy [(INA226_CONFIG, 0x4524)])
      = Some ((st1, set_mConfigRegister ready_config snapshot), w1)
      /\ sim_Wakeup (set_mConfigRegister ready_config snapshot) w1
         = Some ((st2, set_mConfigRegister ready_config v),
                 mkWorld b2 (trace w1 ++
                             [EvTransmit (hi2c ready_config)
                                         (mI2C_Address ready_config)
                                         (write_bytes INA226_CONFIG v) t]))
      /\ (Z.land snapshot cOperatingModeMask = ds_Shutdown
          \/ Z.land snapshot cOperatingModeMask = 0 ->
          Z.land v cOperatingModeMask = ds_ShuntAndBusVoltageContinuous)
      /\ Z.land v cOperatingModeMask <> ds_Shutdown
      /\ Z.land v cOperatingModeMask <> 0
      /\ Z.land v (Z.lnot cOperatingModeMask)
         = Z.land snapshot (Z.lnot cOperatingModeMask).
Proof.
  split; [reflexivity |].
  split; [unfold ds_ShuntAndBusVoltageContinuous; lia |].
  split; [discriminate |]. split; [discriminate |].
  apply (wake_after_hibernate_never_writes_shutdown
           sim sim_Transmit sim_Receive ds_Shutdown
           ds_ShuntAndBusVoltageContinuous ready_config
           (healthy [(INA226_CONFIG, 0x4524)]));
    [reflexivity | unfold ds_ShuntAndBusVoltageContinuous; lia
     | discriminate | discriminate].
Defined.

(** ** The further properties at concrete inputs *)

Lemma out_of_range_index_is_refused_without_io_witness :
  mInitialized ready_config = true
  /\ (8 < 0 \/ 7 < 8)
  /\ sim_ConfigureNumSampleAveraging ready_config 8 (healthy [])
     = Some ((BAD_PARAMETER, ready_config), healthy [])
  /\ sim_ConfigureVoltageConversionTime ready_config 8 (healthy [])
     = Some ((BAD_PARAMETER, ready_config), healthy []).
Proof.
  split; [reflexivity | split; [right; lia |]].
  apply (out_of_range_index_is_refused_without_io
           sim sim_Transmit sim_Receive ready_config 8 (healthy []));
    [reflexivity | right; lia].
Defined.

Lemma SetOperatingMode_touches_only_the_mode_bits_witness :
  mInitialized ready_config = true
  /\ 0 <= 5 <= 7
  /\ exists st this' b evs,
      sim_SetOperatingMode ready_config 5 (healthy [(INA226_CONFIG, 0x4527)])
      = Some ((st, this'),
              mkWorld b (trace (healthy [(INA226_CONFIG, 0x4527)]) ++ evs))
      /\ rmw_outcome ready_config cOperatingModeMask 5 this' evs.
Proof.
  split; [reflexivity | split; [lia |]].
  apply (SetOperatingMode_touches_only_the_mode_bits
           sim sim_Transmit sim_Receive ready_config 5
           (healthy [(INA226_CONFIG, 0x4527)])); [reflexivity | lia].
Defined.

Lemma Hibernate_clears_the_mode_bits_and_keeps_the_snapshot_witness :
  mInitialized ready_config = true
  /\ exists st this' b evs,
      sim_Hibernate ready_config (healthy [(INA226_CONFIG, 0x4527)])
      = Some ((st, this'),
              mkWorld b (trace (healthy [(INA226_CONFIG, 0x4527)]) ++ evs)).
Proof.
  split; [reflexivity |].
  destruct (Hibernate_clears_the_mode_bits_and_keeps_the_snapshot
              sim sim_Transmit sim_Receive ready_config
              (healthy [(INA226_CONFIG, 0x4527)]) eq_refl)
    as (st & this' & b & evs & E & _).
  exists st, this', b, evs. exact E.
Defined.

Lemma Wakeup_restores_the_snapshot_witness :
  mInitialized ready_config = true
  /\ 0 <= ds_ShuntAndBusVoltageContinuous <= 7
  /\ exists st1 snapshot w1,
      sim_Hibernate ready_config (healthy [(INA226_CONFIG, 0x4525)])
      = Some ((st1, set_mConfigRegister ready_config snapshot), w1).
Proof.
  split; [reflexivity |].
  assert (H7 : 0 <= ds_ShuntAndBusVoltageContinuous <= 7)
    by (unfold ds_ShuntAndBusVoltageContinuous; lia).
  split; [exact H7 |].
  destruct (Wakeup_restores_the_snapshot
              sim sim_Transmit sim_Receive ds_Shutdown
              ds_ShuntAndBusVoltageContinuous ready_config
              (healthy [(INA226_CONFIG, 0x4525)]) eq_refl H7)
    as (st1 & snapshot & w1 & _ & _ & _ & _ & E & _).
  exists st1, snapshot, w1. exact E.
Defined.

Lemma current_and_power_are_count_times_scale_witness :
  0 <= mCurrentMicroAmpsPerBit ready_config <= 65535
  /\ 0 <= mPowerMicroWattPerBit ready_config <= 32767
  /\ exists st v w',
      INA226_ReadRegister sim sim_Transmit sim_Receive ready_config INA226_CURRENT
                          (healthy [(INA226_CURRENT, 0xFF9C)])
      = Some ((st, v), w')
      /\ sim_GetCurrent_uA (mkINA226 ready_config (mkResult 0 0 0 0))
                           (healthy [(INA226_CURRENT, 0xFF9C)])
         = Some (to_int16 v * mCurrentMicroAmpsPerBit ready_config, w').
Proof.
  assert (Hc : 0 <= mCurrentMicroAmpsPerBit ready_config <= 65535)
    by (simpl; lia).
  assert (Hp : 0 <= mPowerMicroWattPerBit ready_config <= 32767)
    by (simpl; lia).
  split; [exact Hc | split; [exact Hp |]].
  exact (proj1 (current_and_power_are_count_times_scale
                  sim sim_Transmit sim_Receive
                  (mkINA226 ready_config (mkResult 0 0 0 0))
                  (healthy [(INA226_CURRENT, 0xFF9C)]) Hc Hp)).
Defined.

Lemma ResetAlertPin_returns_a_masked_cause_witness :
  mInitialized ready_config = true
  /\ exists st cause b evs,
      sim_ResetAlertPin ready_config (healthy [(INA226_MASK_ENABLE, 0x8010)])
      = Some ((st, (ready_config, cause)),
              mkWorld b (trace (healthy [(INA226_MASK_ENABLE, 0x8010)]) ++ evs)).
Proof.
  split; [reflexivity |].
  destruct (ResetAlertPin_returns_a_masked_cause
              sim sim_Transmit sim_Receive ds_Unknown ready_config
              (healthy [(INA226_MASK_ENABLE, 0x8010)]) eq_refl)
    as (st & cause & b & evs & E & _).
  exists st, cause, b, evs. exact E.
Defined.

Lemma ConfigureAlertPinTrigger_writes_limit_then_mask_witness :
  mInitialized ready_config = true
  /\ Z.land ds_BusVoltageOverLimit cAlertPinModeMask = ds_BusVoltageOverLimit
  /\ sim_alert_value ready_config ds_BusVoltageOverLimit (to_int32 12345678)
     = Some (Some 9876)
  /\ exists st b evs,
      sim_ConfigureAlertPinTrigger ready_config ds_BusVoltageOverLimit 12345678 true
                                   (healthy [(INA226_MASK_ENABLE, 0x0408)])
      = Some ((st, ready_config),
              mkWorld b (trace (healthy [(INA226_MASK_ENABLE, 0x0408)]) ++ evs)).
Proof.
  split; [reflexivity | split; [reflexivity | split; [reflexivity |]]].
  destruct (ConfigureAlertPinTrigger_writes_limit_then_mask
              sim sim_Transmit sim_Receive ds_PowerOverLimit ds_ClearTriggers
              ds_ConversionReady ds_ShuntVoltageOverLimit ds_ShuntVoltageUnderLimit
              ds_BusVoltageOverLimit ds_BusVoltageUnderLimit
              ready_config ds_BusVoltageOverLimit 12345678 9876 true
              (healthy [(INA226_MASK_ENABLE, 0x0408)]) eq_refl eq_refl eq_refl)
    as (st & b & evs & E & _).
  exists st, b, evs. exact E.
Defined.

Lemma bus_voltage_threshold_round_trip_witness :
  ds_BusVoltageOverLimit <> ds_PowerOverLimit
  /\ ds_BusVoltageOverLimit <> ds_ClearTriggers
  /\ ds_BusVoltageOverLimit <> ds_ConversionReady
  /\ ds_BusVoltageOverLimit <> ds_ShuntVoltageOverLimit
  /\ ds_BusVoltageOverLimit <> ds_ShuntVoltageUnderLimit
  /\ 0 <= 12345678 < 65536 * 1250
  /\ exists a,
      sim_alert_value ready_config ds_BusVoltageOverLimit (to_int32 12345678)
      = Some (Some a)
      /\ a = 12345678 / 1250.
Proof.
  repeat (split; [first [discriminate | lia] |]).
  destruct (bus_voltage_threshold_round_trip
              sim sim_Transmit sim_Receive ds_PowerOverLimit ds_ClearTriggers
              ds_ConversionReady ds_ShuntVoltageOverLimit ds_ShuntVoltageUnderLimit
              ds_BusVoltageOverLimit ds_BusVoltageUnderLimit
              ready_config ds_BusVoltageOverLimit 12345678
              ltac:(discriminate) ltac:(discriminate) ltac:(discriminate)
              ltac:(discriminate) ltac:(discriminate) (or_introl eq_refl)
              ltac:(lia))
    as (a & E & Ea & _).
  exists a. split; [exact E | exact Ea].
Defined.

Lemma shunt_voltage_threshold_round_trip_witness :
  ds_ShuntVoltageUnderLimit <> ds_PowerOverLimit
  /\ ds_ShuntVoltageUnderLimit <> ds_ClearTriggers
  /\ ds_ShuntVoltageUnderLimit <> ds_ConversionReady
  /\ -81920 <= -1234 <= 81919
  /\ exists a r,
      sim_alert_value ready_config ds_ShuntVoltageUnderLimit (to_int32 (-1234))
      = Some (Some a)
      /\ Z.abs r <= Z.abs (-1234)
      /\ Z.abs (-1234 - r) <= 2.
Proof.
  repeat (split; [first [discriminate | lia] |]).
  destruct (shunt_voltage_threshold_round_trip
              sim sim_Transmit sim_Receive ds_PowerOverLimit ds_ClearTriggers
              ds_ConversionReady ds_ShuntVoltageOverLimit ds_ShuntVoltageUnderLimit
              ds_BusVoltageOverLimit ds_BusVoltageUnderLimit
              ready_config ds_ShuntVoltageUnderLimit (-1234)
              ltac:(discriminate) ltac:(discriminate) ltac:(discriminate)
              (or_intror eq_refl) ltac:(lia))
    as (a & r & E & _ & _ & Hr & Hd & _).
  exists a, r. split; [exact E | split; [exact Hr | exact Hd]].
Defined.

Lemma power_threshold_round_trip_witness :
  0 < mPowerMicroWattPerBit ready_config
  /\ 0 <= 5000000 <= INT32_MAX
  /\ 5000000 / mPowerMicroWattPerBit ready_config < 65536
  /\ exists a,
      sim_alert_value ready_config ds_PowerOverLimit (to_int32 5000000)
      = Some (Some a)
      /\ a = 5000000 / mPowerMicroWattPerBit ready_config.
Proof.
  assert (H1 : 0 < mPowerMicroWattPerBit ready_config) by (simpl; lia).
  assert (H2 : 0 <= 5000000 <= INT32_MAX) by (unfold INT32_MAX; lia).
  assert (H3 : 5000000 / mPowerMicroWattPerBit ready_config < 65536)
    by (apply Z.ltb_lt; reflexivity).
  split; [exact H1 | split; [exact H2 | split; [exact H3 |]]].
  destruct (power_threshold_round_trip
              sim sim_Transmit sim_Receive ds_PowerOverLimit ds_ClearTriggers
              ds_ConversionReady ds_ShuntVoltageOverLimit ds_ShuntVoltageUnderLimit
              ds_BusVoltageOverLimit ds_BusVoltageUnderLimit
              ready_config 5000000 H1 H2 H3)
    as (a & E & Ea & _).
  exists a. split; [exact E | exact Ea].
Defined.


Lemma Init_identity_errors_precede_every_write_witness :
  double_to_int32 (ceil (ddiv (dmul amps_20 lit_1000000_0) lit_32767_0)) = Some 611
  /\ double_to_uint16
       (ddiv lit_0_00521
             (dmul ohms_0_01
                   (ddiv (ceil (ddiv (dmul amps_20 lit_1000000_0) lit_32767_0))
                         lit_1000000_0)))
     = Some 852
  /\ exists st cfg b evs,
      sim_Init fresh_device 1 0x40 ohms_0_01 amps_20 (healthy [])
      = Some ((st, mkINA226 cfg (Result fresh_device)),
              mkWorld b (trace (healthy []) ++ evs)).
Proof.
  assert (H1 : double_to_int32
                 (ceil (ddiv (dmul amps_20 lit_1000000_0) lit_32767_0)) = Some 611)
    by (vm_compute; reflexivity).
  assert (H2 : double_to_uint16
                 (ddiv lit_0_00521
                       (dmul ohms_0_01
                             (ddiv (ceil (ddiv (dmul amps_20 lit_1000000_0)
                                               lit_32767_0))
                                   lit_1000000_0)))
               = Some 852)
    by (vm_compute; reflexivity).
  split; [exact H1 | split; [exact H2 |]].
  destruct (Init_identity_errors_precede_every_write
              sim sim_Check_device sim_Transmit sim_Receive
              fresh_device 1 0x40 ohms_0_01 amps_20 611 852
              (healthy []) H1 H2)
    as (st & cfg & b & evs & E & _).
  exists st, cfg, b, evs. exact E.
Defined.
